(** * Stock Prediction ML Service: a shallow embedding of [main.py]

    The service is one Python module: a classifier is loaded once at import
    time into the module-level name [model], and five request handlers read
    it.  Python [float] is IEEE 754 binary64, which is what Rocq's primitive
    floats are, so prices, margins and probabilities are [float] values and
    the arithmetic of the source is evaluated, not axiomatised.  Python [int]
    is [Z]; [str] is [string]; [Optional[T]] is [option T]; a [dict] literal
    is an association list in insertion order. *)

From Stdlib Require Import ZArith List String Bool Floats Lia.
Import ListNotations.

Set Warnings "-inexact-float".

Local Open Scope string_scope.
Local Open Scope list_scope.
Local Open Scope Z_scope.

(** ** The fragment of Python the module uses *)

Module Py.

Unset Elimination Schemes.
(** Values that end up in a [dict] literal or come back from the artifact. *)
Inductive value : Type :=
| VNone
| VBool (b : bool)
| VInt (z : Z)
| VFloat (f : float)
| VStr (s : string)
| VList (l : list value)
| VDict (d : list (string * value)).
Set Elimination Schemes.

Definition dict : Type := list (string * value).

Definition of_opt_str (o : option string) : value :=
  match o with Some s => VStr s | None => VNone end.

Definition of_opt_float (o : option float) : value :=
  match o with Some f => VFloat f | None => VNone end.

(** [bool(v)]: Python's truth value.  A float is false only when it
    compares equal to zero, so NaN is true. *)
Definition truthy (v : value) : bool :=
  match v with
  | VNone => false
  | VBool b => b
  | VInt z => negb (z =? 0)
  | VFloat f => negb (PrimFloat.eqb f 0%float)
  | VStr s => negb (String.eqb s "")
  | VList l => match l with [] => false | _ => true end
  | VDict d => match d with [] => false | _ => true end
  end.

(** Text of an error detail: a literal, or an f-string [f"{prefix}{str(e)}"]
    kept as its prefix and the exception it interpolates. *)
Inductive exn : Type :=
| ZeroDivisionError
| IndexError
| ValueError
| KeyError (k : string)
| ArtifactError (msg : string)
| HTTPException (status_code : Z) (detail : text)
with text : Type :=
| Str (s : string)
| FStr (prefix : string) (e : exn).

Inductive result (A : Type) : Type :=
| Return (a : A)
| Raise (e : exn).
Arguments Return {A} a.
Arguments Raise {A} e.

Definition bind {A B} (r : result A) (k : A -> result B) : result B :=
  match r with
  | Return a => k a
  | Raise e => Raise e
  end.

(** [try: body / except Exception as e: handler e]. Every exception of the
    embedding derives from [Exception], [HTTPException] included. *)
Definition try_except {A} (body : result A) (handler : exn -> result A)
  : result A :=
  match body with
  | Return a => Return a
  | Raise e => handler e
  end.

(** [a / b] on floats: only a zero divisor raises; overflow and NaN do not. *)
Definition truediv (a b : float) : result float :=
  if PrimFloat.eqb b 0%float then Raise ZeroDivisionError
  else Return (PrimFloat.div a b).

(** [xs[i]] for [i >= 0]. *)
Definition getitem {A} (xs : list A) (i : nat) : result A :=
  match nth_error xs i with
  | Some x => Return x
  | None => Raise IndexError
  end.

(** [d[k]] on a dict. *)
Fixpoint lookup (d : dict) (k : string) : option value :=
  match d with
  | [] => None
  | (k', v) :: d' => if String.eqb k' k then Some v else lookup d' k
  end.

Definition subscript (d : dict) (k : string) : result value :=
  match lookup d k with
  | Some v => Return v
  | None => Raise (KeyError k)
  end.

(** The builtin [max(iterable)]: keep the first item, replace it by a later
    one only when [item > maxitem]. *)
Definition max_step (m x : float) : float :=
  if PrimFloat.ltb m x then x else m.

Definition max (xs : list float) : result float :=
  match xs with
  | [] => Raise ValueError
  | x :: rest => Return (fold_left max_step rest x)
  end.

(** The builtin [max(a, b)] of two arguments. *)
Definition max2 (a b : float) : float := max_step a b.

Definition len {A} (xs : list A) : Z := Z.of_nat (List.length xs).

End Py.

Import Py.

Declare Scope py_scope.
Delimit Scope py_scope with py.
Notation "x <- c ;; k" := (bind c (fun x => k))
  (at level 61, c at next level, right associativity) : py_scope.
Notation "' p <- c ;; k" := (bind c (fun p => k))
  (at level 61, p pattern, c at next level, right associativity) : py_scope.
Local Open Scope py_scope.

(** ** Data model *)

(** [pd.DataFrame([row])]: the rows, each an ordered column-to-value map. *)
Definition DataFrame : Type := list dict.

(** The deserialised classifier: whatever [joblib.load] returned.  Only three
    things are asked of it: [str(type(model))], [model.predict(frame)] and
    [model.predict_proba(frame)].  Both calls may raise; both are functions of
    the frame alone (the artifact keeps no state between calls). *)
Record Artifact : Type := {
  type_repr : string;
  predict : DataFrame -> result (list value);
  predict_proba : DataFrame -> result (list (list float))
}.

(** Module-level names bound at import time. *)
Record Globals : Type := {
  MODEL_PATH : string;
  model : option Artifact
}.

(** Lines 31-37: read [MODEL_PATH] from the environment, try to load. *)
Definition startup (getenv : string -> option string)
    (joblib_load : string -> result Artifact) : Globals :=
  let path := match getenv "MODEL_PATH" with
              | Some p => p
              | None => "stock_reorder_model.pkl"
              end in
  match joblib_load path with
  | Return m => {| MODEL_PATH := path; model := Some m |}
  | Raise _ => {| MODEL_PATH := path; model := None |}
  end.

(** [class ProductData(BaseModel)], lines 39-50. *)
Record ProductData : Type := {
  product_id : option string;
  cost_price : float;
  selling_price : float;
  profit_margin : option float;
  reorder_frequency : Z;
  current_stock : Z;
  minimum_stock_level : Z;
  category : string;
  brand : option string;
  supplier : option string
}.

(** Attribute assignment [data.profit_margin = v]. *)
Definition set_profit_margin (data : ProductData) (v : option float)
  : ProductData :=
  {| product_id := product_id data;
     cost_price := cost_price data;
     selling_price := selling_price data;
     profit_margin := v;
     reorder_frequency := reorder_frequency data;
     current_stock := current_stock data;
     minimum_stock_level := minimum_stock_level data;
     category := category data;
     brand := brand data;
     supplier := supplier data |}.

(** A JSON field that has a default: left out, sent as [null], or sent. *)
Inductive field (A : Type) : Type :=
| Absent
| Null
| Given (a : A).
Arguments Absent {A}.
Arguments Null {A}.
Arguments Given {A} a.

(** The request body of one product, already of the right JSON types. *)
Record ProductBody : Type := {
  body_product_id : option string;
  body_cost_price : float;
  body_selling_price : float;
  body_profit_margin : option float;
  body_reorder_frequency : option Z;
  body_current_stock : Z;
  body_minimum_stock_level : Z;
  body_category : string;
  body_brand : field string;
  body_supplier : field string
}.

Definition with_default (dflt : string) (f : field string) : option string :=
  match f with
  | Absent => Some dflt
  | Null => None
  | Given s => Some s
  end.

(** The [Field] constraints of [ProductData]: [gt=0] on both prices, [ge=1]
    on a supplied [reorder_frequency], [ge=0] on both stock levels; defaults
    are filled in and not validated. *)
Definition validate (b : ProductBody) : option ProductData :=
  if PrimFloat.ltb 0%float (body_cost_price b)
     && PrimFloat.ltb 0%float (body_selling_price b)
     && match body_reorder_frequency b with
        | Some n => 1 <=? n
        | None => true
        end
     && (0 <=? body_current_stock b)
     && (0 <=? body_minimum_stock_level b)
  then Some {| product_id := body_product_id b;
               cost_price := body_cost_price b;
               selling_price := body_selling_price b;
               profit_margin := body_profit_margin b;
               reorder_frequency :=
                 match body_reorder_frequency b with
                 | Some n => n
                 | None => 30
                 end;
               current_stock := body_current_stock b;
               minimum_stock_level := body_minimum_stock_level b;
               category := body_category b;
               brand := with_default "Generic" (body_brand b);
               supplier := with_default "Default" (body_supplier b) |}
  else None.

(** [class PredictionResponse(BaseModel)], lines 52-58. *)
Record PredictionResponse : Type := {
  reorder_required : bool;
  confidence : float;
  probability_reorder : float;
  probability_no_reorder : float;
  model_version : string
}.

Definition PredictionResponse_init (rr : bool) (c pr pnr : float)
  : PredictionResponse :=
  {| reorder_required := rr;
     confidence := c;
     probability_reorder := pr;
     probability_no_reorder := pnr;
     model_version := "1.0.0" |}.

(** ** Request handlers *)

(** A handler returns or raises, and hands back the request object it may
    have assigned to and the module globals as it leaves them. *)

(** Lines 98-101 (and 151-154): fill in a missing margin.  When the division
    raises, the assignment does not happen. *)
Definition fill_profit_margin (data : ProductData) : result ProductData :=
  match profit_margin data with
  | None =>
      q <- truediv (PrimFloat.sub (selling_price data) (cost_price data))
                   (cost_price data) ;;
      Return (set_profit_margin data (Some (PrimFloat.mul q 100%float)))
  | Some _ => Return data
  end.

(** Lines 104-114 (and 157-167): the one-row frame handed to the artifact. *)
Definition input_data (data : ProductData) : DataFrame :=
  [ [ ("cost_price", VFloat (cost_price data));
      ("selling_price", VFloat (selling_price data));
      ("Profit margin", of_opt_float (profit_margin data));
      ("reorder_frequency", VInt (reorder_frequency data));
      ("current_stock", VInt (current_stock data));
      ("minimum_stock_level", VInt (minimum_stock_level data));
      ("category", VStr (category data));
      ("brand", of_opt_str (brand data));
      ("supplier", of_opt_str (supplier data)) ] ].

(** Lines 117-126: ask the artifact and shape the answer. *)
Definition make_prediction (m : Artifact) (frame : DataFrame)
  : result PredictionResponse :=
  ys <- predict m frame ;;
  prediction <- getitem ys 0 ;;
  ps <- predict_proba m frame ;;
  probabilities <- getitem ps 0 ;;
  c <- Py.max probabilities ;;
  p1 <- getitem probabilities 1 ;;
  p0 <- getitem probabilities 0 ;;
  Return (PredictionResponse_init (truthy prediction) c p1 p0).

(** The [try] block of [predict_reorder], lines 97-126. *)
Definition predict_reorder_try (m : Artifact) (data : ProductData)
  : result PredictionResponse * ProductData :=
  match fill_profit_margin data with
  | Raise e => (Raise e, data)
  | Return data => (make_prediction m (input_data data), data)
  end.

(** [POST /predict], lines 79-132. *)
Definition predict_reorder (data : ProductData) (g : Globals)
  : result PredictionResponse * ProductData * Globals :=
  match model g with
  | None =>
      (Raise (HTTPException 503
                (Str "Model not loaded. Please check server configuration.")),
       data, g)
  | Some m =>
      let '(body, data) := predict_reorder_try m data in
      (try_except body
         (fun e => Raise (HTTPException 500 (FStr "Prediction error: " e))),
       data, g)
  end.

(** Lines 170-178: the dict appended to [results] for one product. *)
Definition batch_entry (m : Artifact) (product : ProductData)
    (frame : DataFrame) : result dict :=
  ys <- predict m frame ;;
  prediction <- getitem ys 0 ;;
  ps <- predict_proba m frame ;;
  probabilities <- getitem ps 0 ;;
  c <- Py.max probabilities ;;
  p1 <- getitem probabilities 1 ;;
  Return [ ("product_id", of_opt_str (product_id product));
           ("reorder_required", VBool (truthy prediction));
           ("confidence", VFloat c);
           ("probability_reorder", VFloat p1) ].

(** One turn of the loop, lines 150-178. *)
Definition batch_predict_item (m : Artifact) (product : ProductData)
  : result dict * ProductData :=
  match fill_profit_margin product with
  | Raise e => (Raise e, product)
  | Return product => (batch_entry m product (input_data product), product)
  end.

(** [for product in products: ...; results.append({...})], lines 149-178.
    The first exception leaves the loop; products already visited keep the
    margin assigned to them. *)
Fixpoint batch_predict_loop (m : Artifact) (products : list ProductData)
    (results : list dict) : result (list dict) * list ProductData :=
  match products with
  | [] => (Return results, [])
  | product :: rest =>
      match batch_predict_item m product with
      | (Raise e, product) => (Raise e, product :: rest)
      | (Return r, product) =>
          let '(out, rest) := batch_predict_loop m rest (results ++ [r]) in
          (out, product :: rest)
      end
  end.

(** [sum(1 for r in results if r['reorder_required'])], line 183. *)
Fixpoint sum_reorder (results : list dict) (acc : Z) : result Z :=
  match results with
  | [] => Return acc
  | r :: rest =>
      v <- subscript r "reorder_required" ;;
      sum_reorder rest (if truthy v then acc + 1 else acc)
  end.

(** The [try] block of [batch_predict], lines 148-184. *)
Definition batch_predict_try (m : Artifact) (products : list ProductData)
  : result dict * list ProductData :=
  let '(loop, products) := batch_predict_loop m products [] in
  (results <- loop ;;
   n <- sum_reorder results 0 ;;
   Return [ ("predictions", VList (map VDict results));
            ("total_products", VInt (len products));
            ("reorder_needed", VInt n) ],
   products).

(** [POST /batch-predict], lines 134-190. *)
Definition batch_predict (products : list ProductData) (g : Globals)
  : result dict * list ProductData * Globals :=
  match model g with
  | None => (Raise (HTTPException 503 (Str "Model not loaded")), products, g)
  | Some m =>
      let '(body, products) := batch_predict_try m products in
      (try_except body
         (fun e =>
            Raise (HTTPException 500 (FStr "Batch prediction error: " e))),
       products, g)
  end.

Definition is_not_None {A} (o : option A) : bool :=
  match o with Some _ => true | None => false end.

(** [GET /], lines 60-68. *)
Definition read_root (g : Globals) : result dict * Globals :=
  (Return [ ("service", VStr "Stock Prediction ML Service");
            ("status", VStr "running");
            ("model_loaded", VBool (is_not_None (model g)));
            ("version", VStr "1.0.0") ],
   g).

(** [GET /health], lines 70-77. *)
Definition health_check (g : Globals) : result dict * Globals :=
  (Return [ ("status",
             VStr (if is_not_None (model g) then "healthy" else "degraded"));
            ("model_loaded", VBool (is_not_None (model g)));
            ("model_path", VStr (MODEL_PATH g)) ],
   g).

Definition numerical_features : list string :=
  [ "cost_price"; "selling_price"; "Profit margin";
    "reorder_frequency"; "current_stock"; "minimum_stock_level" ].

Definition categorical_features : list string :=
  [ "category"; "brand"; "supplier" ].

Definition performance : dict :=
  [ ("accuracy", VFloat 0.99%float);
    ("precision", VFloat 0.98%float);
    ("recall", VFloat 0.97%float);
    ("f1_score", VFloat 0.97%float) ].

(** [GET /model-info], lines 192-219. *)
Definition get_model_info (g : Globals) : result dict * Globals :=
  match model g with
  | None => (Raise (HTTPException 503 (Str "Model not loaded")), g)
  | Some m =>
      (try_except
         (Return [ ("model_type", VStr (type_repr m));
                   ("features",
                    VDict [ ("numerical",
                             VList (map VStr numerical_features));
                            ("categorical",
                             VList (map VStr categorical_features)) ]);
                   ("performance", VDict performance) ])
         (fun e =>
            Raise (HTTPException 500 (FStr "Error getting model info: " e))),
       g)
  end.

(** ** The framework around the handlers

    FastAPI validates the body against [ProductData] before the handler is
    called and answers 422 itself when that fails.  The 422 body echoes the
    input of every field that failed and is rendered by [json.dumps] with
    [allow_nan=False]: an echoed NaN or infinity makes the rendering raise
    [ValueError], which nothing catches.  A returned value becomes a 200
    response (its rendering is not modelled: the bodies looked at here
    hold no NaN and no infinity); an [HTTPException] becomes a response
    with its status and detail; any other exception escapes the handler. *)

Inductive response (A : Type) : Type :=
| OK (body : A)
| Unprocessable
| ErrorResponse (status_code : Z) (detail : text)
| Unhandled (e : exn).
Arguments OK {A} body.
Arguments Unprocessable {A}.
Arguments ErrorResponse {A} status_code detail.
Arguments Unhandled {A} e.

Definition respond {A} (r : result A) : response A :=
  match r with
  | Return a => OK a
  | Raise (HTTPException s d) => ErrorResponse s d
  | Raise e => Unhandled e
  end.

(** Status of a response; an escaped exception has none of its own. *)
Definition status {A} (r : response A) : option Z :=
  match r with
  | OK _ => Some 200
  | Unprocessable => Some 422
  | ErrorResponse s _ => Some s
  | Unhandled _ => None
  end.

Definition client_error {A} (r : response A) : bool :=
  match status r with
  | Some s => (400 <=? s) && (s <? 500)
  | None => false
  end.

Fixpoint validate_all (bs : list ProductBody) : option (list ProductData) :=
  match bs with
  | [] => Some []
  | b :: rest =>
      match validate b, validate_all rest with
      | Some d, Some ds => Some (d :: ds)
      | _, _ => None
      end
  end.

(** [json.dumps(v, allow_nan=False)] accepts [v]: no NaN and no infinity
    anywhere in it. *)
Fixpoint renderable (v : value) : bool :=
  match v with
  | VFloat f => PrimFloat.is_finite f
  | VList l => forallb renderable l
  | VDict d => forallb (fun kv => renderable (snd kv)) d
  | _ => true
  end.

(** The inputs a validation error echoes: the value of each field that
    failed its [Field] constraint, in field order. *)
Definition rejected_inputs (b : ProductBody) : list value :=
  (if PrimFloat.ltb 0%float (body_cost_price b) then []
   else [VFloat (body_cost_price b)])
  ++ (if PrimFloat.ltb 0%float (body_selling_price b) then []
      else [VFloat (body_selling_price b)])
  ++ match body_reorder_frequency b with
     | Some n => if 1 <=? n then [] else [VInt n]
     | None => []
     end
  ++ (if 0 <=? body_current_stock b then []
      else [VInt (body_current_stock b)])
  ++ (if 0 <=? body_minimum_stock_level b then []
      else [VInt (body_minimum_stock_level b)]).

Definition renders (b : ProductBody) : bool :=
  forallb renderable (rejected_inputs b).

(** The answer to a body that failed validation: 422 when the error body
    renders, the escaped [ValueError] when it does not. *)
Definition unprocessable {A} (bs : list ProductBody) : response A :=
  if forallb renders bs then Unprocessable else Unhandled ValueError.

Definition post_predict (b : ProductBody) (g : Globals)
  : response PredictionResponse * Globals :=
  match validate b with
  | None => (unprocessable [b], g)
  | Some data =>
      let '(r, _, g) := predict_reorder data g in (respond r, g)
  end.

Definition post_batch_predict (bs : list ProductBody) (g : Globals)
  : response dict * Globals :=
  match validate_all bs with
  | None => (unprocessable bs, g)
  | Some products =>
      let '(r, _, g) := batch_predict products g in (respond r, g)
  end.

Definition get_root (g : Globals) : response dict * Globals :=
  let '(r, g) := read_root g in (respond r, g).

Definition get_health (g : Globals) : response dict * Globals :=
  let '(r, g) := health_check g in (respond r, g).

Definition get_model_info_response (g : Globals) : response dict * Globals :=
  let '(r, g) := get_model_info g in (respond r, g).

(** ** Specification-side definitions *)

(** The margin formula as the data model words it,
    [(selling_price - cost_price) / cost_price * 100], in binary64. *)
Definition spec_margin (selling cost : float) : float :=
  PrimFloat.mul (PrimFloat.div (PrimFloat.sub selling cost) cost) 100%float.

(** The training-time column order. *)
Definition feature_columns : list string :=
  [ "cost_price"; "selling_price"; "Profit margin"; "reorder_frequency";
    "current_stock"; "minimum_stock_level"; "category"; "brand"; "supplier" ].

Definition server_error {A} (prefix : string) (e : exn) : result A :=
  Raise (HTTPException 500 (FStr prefix e)).

(** The reduced per-product dict of a batch answer, described from the
    artifact's outputs on the product's frame. *)
Definition entry_for (m : Artifact) (p : ProductData) (r : dict) : Prop :=
  exists d y ys probs ps c p1,
    fill_profit_margin p = Return d
    /\ predict m (input_data d) = Return (y :: ys)
    /\ predict_proba m (input_data d) = Return (probs :: ps)
    /\ Py.max probs = Return c
    /\ getitem probs 1 = Return p1
    /\ r = [ ("product_id", of_opt_str (product_id p));
             ("reorder_required", VBool (truthy y));
             ("confidence", VFloat c);
             ("probability_reorder", VFloat p1) ].

(** An entry whose [reorder_required] is true. *)
Definition flagged (r : dict) : bool :=
  match lookup r "reorder_required" with
  | Some (VBool true) => true
  | _ => false
  end.

(** The aggregate answer of a batch. *)
Definition batch_response (results : list dict) (total needed : Z) : dict :=
  [ ("predictions", VList (map VDict results));
    ("total_products", VInt total);
    ("reorder_needed", VInt needed) ].

(** A product whose turn of the loop returns, respectively raises. *)
Definition item_returns (m : Artifact) (p : ProductData) : Prop :=
  exists r, fst (batch_predict_item m p) = Return r.

Definition item_raises (m : Artifact) (p : ProductData) : Prop :=
  exists e, fst (batch_predict_item m p) = Raise e.

(** ** Sample data *)



(** A stand-in classifier that decides each row from its stock columns:
    reorder when the stock is at or below the minimum. *)
Definition stock_rule (row : dict) : bool :=
  match lookup row "current_stock", lookup row "minimum_stock_level" with
  | Some (VInt c), Some (VInt m) => c <=? m
  | _, _ => false
  end.

Definition sample_artifact : Artifact :=
  {| type_repr := "<class 'sklearn.pipeline.Pipeline'>";
     predict := fun frame =>
       Return (map (fun row => VInt (if stock_rule row then 1 else 0)) frame);
     predict_proba := fun frame =>
       Return (map (fun row => if stock_rule row
                               then [0.25%float; 0.75%float]
                               else [0.75%float; 0.25%float]) frame) |}.

(** A classifier that rejects every frame. *)
Definition failing_artifact : Artifact :=
  {| type_repr := "<class 'sklearn.pipeline.Pipeline'>";
     predict := fun _ => Raise (ArtifactError "Found unknown categories");
     predict_proba := fun _ => Raise (ArtifactError "Found unknown categories") |}.

Definition loaded (m : Artifact) : Globals :=
  {| MODEL_PATH := "stock_reorder_model.pkl"; model := Some m |}.

Definition degraded : Globals :=
  startup (fun _ => None) (fun _ => Raise (ArtifactError "No such file")).

Definition sample_body (id : string) (cost sell : float) (stock minimum : Z)
  : ProductBody :=
  {| body_product_id := Some id;
     body_cost_price := cost;
     body_selling_price := sell;
     body_profit_margin := None;
     body_reorder_frequency := None;
     body_current_stock := stock;
     body_minimum_stock_level := minimum;
     body_category := "Beverages";
     body_brand := Absent;
     body_supplier := Absent |}.

Definition sample_product (id : string) (cost sell : float)
    (stock minimum : Z) : ProductData :=
  {| product_id := Some id;
     cost_price := cost;
     selling_price := sell;
     profit_margin := None;
     reorder_frequency := 30;
     current_stock := stock;
     minimum_stock_level := minimum;
     category := "Beverages";
     brand := Some "Generic";
     supplier := Some "Default" |}.

(** A classifier that knows one category and rejects frames with another. *)
Definition known_category (row : dict) : bool :=
  match lookup row "category" with
  | Some (VStr c) => String.eqb c "Beverages"
  | _ => false
  end.

Definition strict_artifact : Artifact :=
  {| type_repr := type_repr sample_artifact;
     predict := fun frame =>
       if forallb known_category frame then predict sample_artifact frame
       else Raise (ArtifactError "Found unknown categories");
     predict_proba := fun frame =>
       if forallb known_category frame then predict_proba sample_artifact frame
       else Raise (ArtifactError "Found unknown categories") |}.

Definition unknown_product : ProductData :=
  {| product_id := None;
     cost_price := 4%float;
     selling_price := 5%float;
     profit_margin := Some 25%float;
     reorder_frequency := 7;
     current_stock := 1;
     minimum_stock_level := 2;
     category := "Unlisted";
     brand := None;
     supplier := Some "Default" |}.

(** Three products, the first and the last at or below their minimum. *)
Definition three_products : list ProductData :=
  [ sample_product "a" 10 15 3 5;
    sample_product "b" 10 15 10 5;
    sample_product "c" 2 3 0 1 ].

(** ** Definitions for further properties of the handlers *)

(** [data.product_id = id]. *)
Definition set_product_id (data : ProductData) (id : option string)
  : ProductData :=
  {| product_id := id;
     cost_price := cost_price data;
     selling_price := selling_price data;
     profit_margin := profit_margin data;
     reorder_frequency := reorder_frequency data;
     current_stock := current_stock data;
     minimum_stock_level := minimum_stock_level data;
     category := category data;
     brand := brand data;
     supplier := supplier data |}.

(** The batch entry that carries what a single-record response carries. *)
Definition entry_of (p : ProductData) (resp : PredictionResponse) : dict :=
  [ ("product_id", of_opt_str (product_id p));
    ("reorder_required", VBool (reorder_required resp));
    ("confidence", VFloat (confidence resp));
    ("probability_reorder", VFloat (probability_reorder resp)) ].

(** [0 <= x <= 1] on floats; false on NaN. *)
Definition in_unit_interval (x : float) : bool :=
  PrimFloat.leb 0%float x && PrimFloat.leb x 1%float.

(** All a handler may do to a request record: nothing, or fill the missing
    margin with the derived one. *)
Definition margin_filled (p p' : ProductData) : Prop :=
  p' = p
  \/ (profit_margin p = None
      /\ p' = set_profit_margin p
                (Some (spec_margin (selling_price p) (cost_price p)))).

(** The three ways [predict_reorder] can end. *)
Inductive predict_outcome : result PredictionResponse -> Prop :=
| Answered (resp : PredictionResponse) : predict_outcome (Return resp)
| Unavailable :
    predict_outcome
      (Raise (HTTPException 503
                (Str "Model not loaded. Please check server configuration.")))
| Failed (e : exn) :
    predict_outcome (Raise (HTTPException 500 (FStr "Prediction error: " e))).

(** A classifier with three classes. *)
Definition three_class_artifact : Artifact :=
  {| type_repr := type_repr sample_artifact;
     predict := fun frame => Return (map (fun _ => VInt 2) frame);
     predict_proba := fun frame =>
       Return (map (fun _ => [0.125%float; 0.25%float; 0.625%float]) frame) |}.

(** A classifier whose probability rows have one entry only. *)
Definition one_column_artifact : Artifact :=
  {| type_repr := type_repr sample_artifact;
     predict := fun frame => Return (map (fun _ => VInt 1) frame);
     predict_proba := fun frame => Return (map (fun _ => [1%float]) frame) |}.

(** A record with a zero cost price and no margin, as the handler sees it
    when called past the schema. *)
Definition zero_cost_product : ProductData := sample_product "z" 0 15 3 5.

(** The entries the sample classifier produces for [three_products]. *)
Definition three_entries : list dict :=
  [ [ ("product_id", VStr "a"); ("reorder_required", VBool true);
      ("confidence", VFloat 0.75); ("probability_reorder", VFloat 0.75) ];
    [ ("product_id", VStr "b"); ("reorder_required", VBool false);
      ("confidence", VFloat 0.75); ("probability_reorder", VFloat 0.25) ];
    [ ("product_id", VStr "c"); ("reorder_required", VBool true);
      ("confidence", VFloat 0.75); ("probability_reorder", VFloat 0.75) ] ].


(** A request body whose cost price is infinite. *)
Definition infinite_cost_body : ProductBody :=
  sample_body "inf" infinity 15 3 5.

(** * Properties *)

Example sample_body_validates :
  validate (sample_body "p1" 10 15 3 5) = Some (sample_product "p1" 10 15 3 5).
Proof. reflexivity. Qed.

(** ** Facts about binary64 comparison and addition *)

Section FloatFacts.

Lemma float_add_comm (x y : float) : PrimFloat.add x y = PrimFloat.add y x.
Proof.
  apply Prim2SF_inj. rewrite !add_spec. unfold SF64add, SFadd.
  destruct (Prim2SF x) as [sx|sx| |sx mx ex],
           (Prim2SF y) as [sy|sy| |sy my ey]; try reflexivity.
  - destruct sx, sy; reflexivity.
  - destruct sx, sy; reflexivity.
  - rewrite Z.min_comm, Z.add_comm. reflexivity.
Qed.

Lemma SFcompare_antisym (a b : spec_float) :
  SFcompare b a = option_map CompOpp (SFcompare a b).
Proof.
  destruct a as [sa|sa| |sa ma ea], b as [sb|sb| |sb mb eb]; simpl;
    try reflexivity; try (destruct sa; reflexivity);
    try (destruct sb; reflexivity).
  - destruct sa, sb; reflexivity.
  - change (Pos.compare_cont Eq ma mb) with (Pos.compare ma mb).
    change (Pos.compare_cont Eq mb ma) with (Pos.compare mb ma).
    rewrite (Z.compare_antisym ea eb), (Pos.compare_antisym ma mb).
    destruct sa, sb; try reflexivity;
      destruct (ea ?= eb)%Z; simpl; try reflexivity;
      destruct (ma ?= mb)%positive; reflexivity.
Qed.

Lemma float_ltb_asym (x y : float) :
  PrimFloat.ltb x y = true -> PrimFloat.ltb y x = false.
Proof.
  rewrite !ltb_spec. unfold SFltb. rewrite (SFcompare_antisym (Prim2SF x)).
  destruct (SFcompare (Prim2SF x) (Prim2SF y)) as [[]|]; simpl;
    discriminate || reflexivity.
Qed.

Lemma float_ltb_not_eqb (x y : float) :
  PrimFloat.ltb x y = true -> PrimFloat.eqb y x = false.
Proof.
  rewrite ltb_spec, eqb_spec. unfold SFltb, SFeqb.
  rewrite (SFcompare_antisym (Prim2SF x)).
  destruct (SFcompare (Prim2SF x) (Prim2SF y)) as [[]|]; simpl;
    discriminate || reflexivity.
Qed.


Lemma SFcompare_Eq_finite (a b : spec_float) :
  SFcompare a b = Some Eq ->
  (exists s m e, a = S754_finite s m e) -> a = b.
Proof.
  intros H (s & m & e & ->).
  destruct b as [sb|sb| |sb mb eb]; simpl in H; try discriminate;
    try (destruct s; discriminate); try (destruct sb; discriminate).
  destruct s, sb; try discriminate;
    destruct (e ?= eb)%Z eqn:Ee; try discriminate;
    apply Z.compare_eq in Ee; subst eb;
    injection H as H.
  - destruct (Pos.compare_cont Eq m mb) eqn:Em; try discriminate.
    apply Pos.compare_eq in Em. subst. reflexivity.
  - apply Pos.compare_eq in H. subst. reflexivity.
Qed.

Lemma Prim2SF_one : exists m e, Prim2SF 1%float = S754_finite false m e.
Proof. eexists _, _. vm_compute. reflexivity. Qed.

(** Two floats that add up to one and are not ordered either way are the
    same float: neither is NaN, and they are not the two zeros. *)
Lemma sum_one_unordered_eq (x y : float) :
  PrimFloat.add x y = 1%float ->
  PrimFloat.ltb x y = false -> PrimFloat.ltb y x = false -> x = y.
Proof.
  intros Hs Hxy Hyx. apply Prim2SF_inj.
  apply (f_equal Prim2SF) in Hs. rewrite add_spec in Hs.
  destruct Prim2SF_one as (m1 & e1 & E1). rewrite E1 in Hs. clear E1.
  rewrite ltb_spec in Hxy, Hyx. unfold SFltb in Hxy, Hyx.
  rewrite (SFcompare_antisym (Prim2SF x)) in Hyx.
  destruct (SFcompare (Prim2SF x) (Prim2SF y)) as [[]|] eqn:Ec;
    simpl in Hyx; try discriminate.
  - destruct (Prim2SF x) as [sx|sx| |sx mx ex] eqn:Ex;
      [ | | | apply SFcompare_Eq_finite; eauto ];
      destruct (Prim2SF y) as [sy|sy| |sy my ey];
      cbn in Hs, Ec; try discriminate;
      try (destruct sy; discriminate);
      destruct sx, sy; discriminate.
  - destruct (Prim2SF x) as [sx|sx| |sx mx ex],
             (Prim2SF y) as [sy|sy| |sy my ey];
      try (cbn in Ec; discriminate); cbn in Hs; discriminate.
Qed.

(** On such a pair the two-argument maximum does not depend on the order of
    its arguments. *)
Lemma max_step_comm_sum_one (x y : float) :
  PrimFloat.add x y = 1%float -> max_step x y = max_step y x.
Proof.
  intros Hs. unfold max_step.
  destruct (PrimFloat.ltb x y) eqn:Exy.
  - rewrite (float_ltb_asym _ _ Exy). reflexivity.
  - destruct (PrimFloat.ltb y x) eqn:Eyx; [ reflexivity | ].
    apply sum_one_unordered_eq; assumption.
Qed.

End FloatFacts.

(** ** The record normalizer: derived margin and feature row *)

Lemma fill_profit_margin_absent (data : ProductData) :
  profit_margin data = None ->
  PrimFloat.ltb 0%float (cost_price data) = true ->
  fill_profit_margin data =
  Return (set_profit_margin data
            (Some (spec_margin (selling_price data) (cost_price data)))).
Proof.
  intros Hpm Hpos. unfold fill_profit_margin, truediv. rewrite Hpm.
  rewrite (float_ltb_not_eqb _ _ Hpos). reflexivity.
Qed.

Lemma fill_profit_margin_present (data : ProductData) (v : float) :
  profit_margin data = Some v -> fill_profit_margin data = Return data.
Proof. intros Hpm. unfold fill_profit_margin. rewrite Hpm. reflexivity. Qed.

(** What a successful fill leaves in the margin attribute; nothing else of
    the record changes. *)
Lemma fill_profit_margin_Return (data d : ProductData) :
  fill_profit_margin data = Return d ->
  exists v, profit_margin d = Some v /\ d = set_profit_margin data (Some v).
Proof.
  unfold fill_profit_margin, truediv.
  destruct (profit_margin data) as [v|] eqn:Hpm.
  - intros [= <-]. exists v. split; [ assumption | ].
    destruct data; simpl in *; subst; reflexivity.
  - destruct (PrimFloat.eqb (cost_price data) 0%float); simpl; [ discriminate | ].
    intros [= <-]. eexists; split; reflexivity.
Qed.

(** The only way the fill fails is a zero divisor. *)
Lemma fill_profit_margin_Raise (data : ProductData) (e : exn) :
  fill_profit_margin data = Raise e ->
  e = ZeroDivisionError /\ profit_margin data = None
  /\ PrimFloat.eqb (cost_price data) 0%float = true.
Proof.
  unfold fill_profit_margin, truediv.
  destruct (profit_margin data); [ discriminate | ].
  destruct (PrimFloat.eqb (cost_price data) 0%float); simpl; [ | discriminate ].
  intros [= <-]. auto.
Qed.

(** C1: a record without [profit_margin] and with [cost_price > 0] gets the
    margin [(selling_price - cost_price) / cost_price * 100]; the frame
    built from the record so completed holds exactly that value under
    "Profit margin", and that frame is the one [predict_reorder] hands to a
    loaded artifact; for cost 10 and price 15 the value is 50.0. *)
Theorem predict_derives_profit_margin (g : Globals) (data : ProductData) :
  profit_margin data = None ->
  PrimFloat.ltb 0%float (cost_price data) = true ->
  let pm := spec_margin (selling_price data) (cost_price data) in
  let data' := set_profit_margin data (Some pm) in
  fill_profit_margin data = Return data'
  /\ (exists row, input_data data' = [row]
                  /\ lookup row "Profit margin" = Some (VFloat pm))
  /\ (forall m, model g = Some m ->
        predict_reorder data g =
        (try_except (make_prediction m (input_data data'))
           (server_error "Prediction error: "), data', g))
  /\ (cost_price data = 10%float -> selling_price data = 15%float ->
      pm = 50%float).
Proof.
  intros Hpm Hpos pm data'.
  pose proof (fill_profit_margin_absent data Hpm Hpos) as Hfill.
  split; [ exact Hfill | ]. split; [ | split ].
  - eexists. split; reflexivity.
  - intros m Hm. unfold predict_reorder, predict_reorder_try.
    rewrite Hm, Hfill. reflexivity.
  - intros Hc Hs. subst pm. rewrite Hc, Hs. reflexivity.
Qed.

Lemma predict_derives_profit_margin_witness :
  fill_profit_margin (sample_product "p1" 10 15 3 5)
  = Return (set_profit_margin (sample_product "p1" 10 15 3 5) (Some 50%float))
  /\ predict_reorder (sample_product "p1" 10 15 3 5) (loaded sample_artifact) =
    (Return (PredictionResponse_init true 0.75 0.75 0.25),
     set_profit_margin (sample_product "p1" 10 15 3 5) (Some 50%float),
     loaded sample_artifact)
  /\ lookup (hd [] (input_data
                      (set_profit_margin (sample_product "p1" 10 15 3 5)
                         (Some 50%float))))
            "Profit margin" = Some (VFloat 50).
Proof.
  destruct (predict_derives_profit_margin (loaded sample_artifact)
              (sample_product "p1" 10 15 3 5))
    as (Hfill & _ & Hrun & _); [ reflexivity | reflexivity | ].
  split; [ exact Hfill | ].
  split; [ exact (Hrun sample_artifact eq_refl) | reflexivity ].
Defined.

(** C2: for a record with a positive cost price, normalisation succeeds and
    the frame given to the artifact, by [predict_reorder] and by every turn
    of [batch_predict] alike, is one row of nine columns in training order,
    holding the record's own values, the margin under the label
    "Profit margin" (the supplied one, or the derived one when absent) and
    the categorical fields as they came. *)
Theorem feature_row_contract (data : ProductData) :
  PrimFloat.ltb 0%float (cost_price data) = true ->
  exists d' row,
    fill_profit_margin data = Return d'
    /\ input_data d' = [row]
    /\ List.length row = 9%nat
    /\ map fst row = feature_columns
    /\ map snd row =
       [ VFloat (cost_price data);
         VFloat (selling_price data);
         VFloat (match profit_margin data with
                 | Some v => v
                 | None => spec_margin (selling_price data) (cost_price data)
                 end);
         VInt (reorder_frequency data);
         VInt (current_stock data);
         VInt (minimum_stock_level data);
         VStr (category data);
         of_opt_str (brand data);
         of_opt_str (supplier data) ]
    /\ (forall m, predict_reorder_try m data = (make_prediction m [row], d'))
    /\ (forall m, batch_predict_item m data = (batch_entry m d' [row], d')).
Proof.
  intros Hpos.
  destruct (profit_margin data) as [v|] eqn:Hpm.
  - exists data. eexists. split; [ apply (fill_profit_margin_present _ v Hpm) | ].
    split; [ reflexivity | ].
    split; [ reflexivity | ]. split; [ reflexivity | ].
    split; [ simpl; rewrite Hpm; reflexivity | ].
    split; intros m; unfold predict_reorder_try, batch_predict_item;
      rewrite (fill_profit_margin_present _ v Hpm); reflexivity.
  - eexists. eexists.
    split; [ apply (fill_profit_margin_absent _ Hpm Hpos) | ].
    split; [ reflexivity | ].
    split; [ reflexivity | ]. split; [ reflexivity | ].
    split; [ reflexivity | ].
    split; intros m; unfold predict_reorder_try, batch_predict_item;
      rewrite (fill_profit_margin_absent _ Hpm Hpos); reflexivity.
Qed.

Lemma feature_row_contract_witness :
  exists d' row,
    fill_profit_margin (sample_product "p1" 10 15 3 5) = Return d'
    /\ input_data d' = [row]
    /\ map fst row = feature_columns
    /\ map snd row =
       [ VFloat 10; VFloat 15; VFloat 50; VInt 30; VInt 3; VInt 5;
         VStr "Beverages"; VStr "Generic"; VStr "Default" ].
Proof.
  destruct (feature_row_contract (sample_product "p1" 10 15 3 5))
    as (d' & row & Hfill & Hrow & _ & Hkeys & Hvals & _);
    [ reflexivity | ].
  exists d', row. repeat split; assumption.
Defined.

(** ** Cost prices at and near zero *)









(** ** The batch loop *)

Section Batch.

Variable m : Artifact.

Let item_is (p : ProductData) (r : dict) : Prop :=
  fst (batch_predict_item m p) = Return r.

Lemma batch_predict_item_entry (p : ProductData) (r : dict) :
  fst (batch_predict_item m p) = Return r -> entry_for m p r.
Proof.
  unfold batch_predict_item.
  destruct (fill_profit_margin p) as [d|e] eqn:Hfill; simpl; [ | discriminate ].
  destruct (fill_profit_margin_Return _ _ Hfill) as (v & _ & Hd).
  unfold batch_entry, getitem.
  destruct (predict m (input_data d)) as [[|y ys]|] eqn:Hy; simpl;
    try discriminate.
  destruct (predict_proba m (input_data d)) as [[|probs ps]|] eqn:Hp; simpl;
    try discriminate.
  destruct probs as [|q0 [|q1 qs]]; simpl; try discriminate.
  intros [= <-]. exists d, y, ys, (q0 :: q1 :: qs), ps.
  eexists. exists q1.
  repeat (split; [ first [ assumption | reflexivity ] | ]).
  rewrite Hd. reflexivity.
Qed.

Lemma entry_for_reorder_required (p : ProductData) (r : dict) :
  entry_for m p r ->
  exists b, lookup r "reorder_required" = Some (VBool b).
Proof.
  intros (d & y & ys & probs & ps & c & p1 & _ & _ & _ & _ & _ & ->).
  eexists. reflexivity.
Qed.

Lemma entry_for_keys (p : ProductData) (r : dict) :
  entry_for m p r ->
  map fst r =
  [ "product_id"; "reorder_required"; "confidence"; "probability_reorder" ].
Proof.
  intros (d & y & ys & probs & ps & c & p1 & _ & _ & _ & _ & _ & ->).
  reflexivity.
Qed.

(** The loop either appends one entry per product, in order, or stops at
    the first product whose turn raises, with that exception. *)
Lemma batch_predict_loop_cases (products : list ProductData) :
  forall results,
    (exists rs, Forall2 item_is products rs
                /\ fst (batch_predict_loop m products results)
                   = Return (results ++ rs))
    \/ (exists pre p post rs e,
          products = pre ++ p :: post
          /\ Forall2 item_is pre rs
          /\ fst (batch_predict_item m p) = Raise e
          /\ fst (batch_predict_loop m products results) = Raise e).
Proof.
  induction products as [|p ps IH]; intros results.
  - left. exists []. split; [ constructor | ].
    simpl. rewrite app_nil_r. reflexivity.
  - simpl. destruct (batch_predict_item m p) as [[r|e] p'] eqn:Hitem.
    + destruct (IH (results ++ [r])) as
        [(rs & Hall & Hloop) | (pre & q & post & rs & e & -> & Hall & Hq & Hloop)];
        destruct (batch_predict_loop m _ (results ++ [r])) as [out rest];
        simpl in Hloop; subst out; simpl.
      * left. exists (r :: rs). split.
        -- constructor; [ unfold item_is; rewrite Hitem; reflexivity | exact Hall ].
        -- rewrite <- app_assoc. reflexivity.
      * right. exists (p :: pre), q, post, (r :: rs), e.
        split; [ reflexivity | ].
        split; [ | split; [ exact Hq | reflexivity ] ].
        constructor; [ unfold item_is; rewrite Hitem; reflexivity | exact Hall ].
    + right. exists [], p, ps, [], e.
      split; [ reflexivity | ]. split; [ constructor | ].
      split; [ rewrite Hitem; reflexivity | reflexivity ].
Qed.
Lemma batch_predict_loop_length (products : list ProductData) :
  forall results,
    List.length (snd (batch_predict_loop m products results))
    = List.length products.
Proof.
  induction products as [|p ps IH]; intros results; simpl; [ reflexivity | ].
  destruct (batch_predict_item m p) as [[r|e] p']; [ | reflexivity ].
  specialize (IH (results ++ [r])).
  destruct (batch_predict_loop m ps (results ++ [r])) as [out rest].
  simpl in *. rewrite IH. reflexivity.
Qed.

(** On entries that carry a boolean [reorder_required] the generator sum
    never raises and counts the true ones. *)
Lemma sum_reorder_counts (results : list dict) :
  (forall r, In r results ->
             exists b, lookup r "reorder_required" = Some (VBool b)) ->
  forall acc,
    sum_reorder results acc = Return (acc + len (filter flagged results)).
Proof.
  unfold len. induction results as [|r rs IH]; intros Hkeys acc; simpl.
  - rewrite Z.add_0_r. reflexivity.
  - destruct (Hkeys r (or_introl eq_refl)) as (b & Hb).
    unfold subscript, flagged. rewrite Hb. simpl.
    rewrite IH by (intros r' Hr'; apply Hkeys; right; exact Hr').
    fold flagged. destruct b; simpl; f_equal; lia.
Qed.

Lemma Forall2_item_entries (products : list ProductData) (rs : list dict) :
  Forall2 item_is products rs -> Forall2 (entry_for m) products rs.
Proof.
  induction 1; constructor; auto using batch_predict_item_entry.
Qed.

Lemma Forall2_entries_keyed (products : list ProductData) (rs : list dict) :
  Forall2 (entry_for m) products rs ->
  forall r, In r rs -> exists b, lookup r "reorder_required" = Some (VBool b).
Proof.
  induction 1 as [|p r ps rs Hpr _ IH]; intros r' [].
  - subst. eapply entry_for_reorder_required; eauto.
  - auto.
Qed.

(** The [try] block of [batch_predict]: all entries and the two counts, or
    the exception of the first product that fails. *)
Lemma batch_predict_try_cases (products : list ProductData) :
  (exists rs, Forall2 item_is products rs
              /\ fst (batch_predict_try m products)
                 = Return (batch_response rs (len products)
                             (len (filter flagged rs))))
  \/ (exists pre p post rs e,
        products = pre ++ p :: post
        /\ Forall2 item_is pre rs
        /\ fst (batch_predict_item m p) = Raise e
        /\ fst (batch_predict_try m products) = Raise e).
Proof.
  unfold batch_predict_try.
  pose proof (batch_predict_loop_length products []) as Hlen.
  destruct (batch_predict_loop_cases products []) as
    [(rs & Hall & Hloop) | (pre & p & post & rs & e & Heq & Hall & Hp & Hloop)];
    destruct (batch_predict_loop m products []) as [out products'];
    simpl in Hloop, Hlen; subst out; simpl.
  - left. exists rs. split; [ exact Hall | ].
    rewrite (sum_reorder_counts rs
               (Forall2_entries_keyed _ _ (Forall2_item_entries _ _ Hall))).
    simpl. unfold batch_response, len. rewrite Hlen. reflexivity.
  - right. exists pre, p, post, rs, e. auto.
Qed.

End Batch.

Lemma batch_predict_loaded (m : Artifact) (g : Globals)
    (products : list ProductData) :
  model g = Some m ->
  fst (fst (batch_predict products g))
  = try_except (fst (batch_predict_try m products))
      (server_error "Batch prediction error: ").
Proof.
  intros Hm. unfold batch_predict. rewrite Hm.
  destruct (batch_predict_try m products). reflexivity.
Qed.

Lemma Forall2_returns (m : Artifact) (products : list ProductData)
    (rs : list dict) :
  Forall2 (fun p r => fst (batch_predict_item m p) = Return r) products rs ->
  Forall (item_returns m) products.
Proof.
  induction 1; constructor; [ eexists; eassumption | assumption ].
Qed.

Lemma returns_not_raises (m : Artifact) (products : list ProductData) :
  Forall (item_returns m) products -> Exists (item_raises m) products -> False.
Proof.
  intros Hall Hex. apply Exists_exists in Hex. destruct Hex as (p & Hin & e & He).
  rewrite Forall_forall in Hall. destruct (Hall p Hin) as (r & Hr).
  rewrite Hr in He. discriminate.
Qed.

(** C4: with an artifact loaded, a batch in which some product's turn
    raises is answered by one [HTTPException] of status 500 whose detail is
    "Batch prediction error: " followed by the exception; and whatever the
    batch, the handler either raises such an exception or returns the
    answer holding an entry for every product: there is no partial answer
    and no other exception leaves the handler. *)
Theorem batch_aborts_as_a_whole
    (m : Artifact) (g : Globals) (products : list ProductData) :
  model g = Some m ->
  (Exists (item_raises m) products ->
   exists e,
     fst (fst (batch_predict products g))
     = Raise (HTTPException 500 (FStr "Batch prediction error: " e))
     /\ respond (fst (fst (batch_predict products g)))
        = ErrorResponse 500 (FStr "Batch prediction error: " e))
  /\ ((exists e,
         fst (fst (batch_predict products g))
         = Raise (HTTPException 500 (FStr "Batch prediction error: " e)))
      \/ (exists rs,
            Forall2 (entry_for m) products rs
            /\ fst (fst (batch_predict products g))
               = Return (batch_response rs (len products)
                           (len (filter flagged rs))))).
Proof.
  intros Hm. rewrite (batch_predict_loaded m g products Hm).
  destruct (batch_predict_try_cases m products) as
    [(rs & Hall & Htry) | (pre & p & post & rs & e & Heq & Hall & Hp & Htry)];
    rewrite Htry; simpl.
  - split.
    + intros Hex. exfalso.
      exact (returns_not_raises m products (Forall2_returns m _ _ Hall) Hex).
    + right. exists rs. split; [ | reflexivity ].
      apply Forall2_item_entries. exact Hall.
  - split.
    + intros _. exists e. split; reflexivity.
    + left. exists e. reflexivity.
Qed.

Lemma batch_aborts_as_a_whole_witness :
  exists e,
    fst (fst (batch_predict
                [ sample_product "a" 10 15 3 5; unknown_product;
                  sample_product "c" 2 3 0 1 ]
                (loaded strict_artifact)))
    = Raise (HTTPException 500 (FStr "Batch prediction error: " e))
    /\ respond (fst (fst (batch_predict
                [ sample_product "a" 10 15 3 5; unknown_product;
                  sample_product "c" 2 3 0 1 ]
                (loaded strict_artifact))))
       = ErrorResponse 500 (FStr "Batch prediction error: " e).
Proof.
  apply (batch_aborts_as_a_whole strict_artifact (loaded strict_artifact));
    [ reflexivity | ].
  apply Exists_cons_tl, Exists_cons_hd.
  exists (ArtifactError "Found unknown categories"). reflexivity.
Defined.

(** C6: with an artifact loaded and every product's turn returning, the
    batch answer lists one entry per product in input order, each exactly
    [product_id] (passed through, [None] included), [reorder_required],
    [confidence] and [probability_reorder]; [total_products] is the number
    of products and [reorder_needed] the number of entries whose
    [reorder_required] is true. *)
Theorem batch_answer_when_all_succeed
    (m : Artifact) (g : Globals) (products : list ProductData) :
  model g = Some m ->
  Forall (item_returns m) products ->
  exists rs,
    fst (fst (batch_predict products g))
    = Return [ ("predictions", VList (map VDict rs));
               ("total_products", VInt (len products));
               ("reorder_needed", VInt (len (filter flagged rs))) ]
    /\ Forall2 (entry_for m) products rs
    /\ List.length rs = List.length products
    /\ Forall (fun r => map fst r = [ "product_id"; "reorder_required";
                                      "confidence"; "probability_reorder" ])
              rs.
Proof.
  intros Hm Hall. rewrite (batch_predict_loaded m g products Hm).
  destruct (batch_predict_try_cases m products) as
    [(rs & Hrs & Htry) | (pre & p & post & rs & e & Heq & _ & Hp & _)].
  - pose proof (Forall2_item_entries m _ _ Hrs) as Hentries.
    exists rs. rewrite Htry. split; [ reflexivity | ].
    split; [ exact Hentries | ].
    split; [ symmetry; eapply Forall2_length; eassumption | ].
    clear - Hentries. induction Hentries; constructor; eauto using entry_for_keys.
  - exfalso. apply (returns_not_raises m products Hall).
    subst products. apply Exists_app. right. apply Exists_cons_hd.
    exists e. exact Hp.
Qed.

Lemma batch_answer_when_all_succeed_witness :
  exists rs,
    fst (fst (batch_predict three_products (loaded sample_artifact)))
    = Return [ ("predictions", VList (map VDict rs));
               ("total_products", VInt (len three_products));
               ("reorder_needed", VInt (len (filter flagged rs))) ]
    /\ Forall2 (entry_for sample_artifact) three_products rs
    /\ List.length rs = List.length three_products
    /\ Forall (fun r => map fst r = [ "product_id"; "reorder_required";
                                      "confidence"; "probability_reorder" ])
              rs.
Proof.
  apply (batch_answer_when_all_succeed sample_artifact
           (loaded sample_artifact) three_products); [ reflexivity | ].
  repeat constructor; eexists; vm_compute; reflexivity.
Defined.

(** The scenario of three products of which two need reordering. *)
Example batch_of_three :
  fst (fst (batch_predict three_products (loaded sample_artifact)))
  = Return
      [ ("predictions",
         VList
           [ VDict [ ("product_id", VStr "a"); ("reorder_required", VBool true);
                     ("confidence", VFloat 0.75);
                     ("probability_reorder", VFloat 0.75) ];
             VDict [ ("product_id", VStr "b"); ("reorder_required", VBool false);
                     ("confidence", VFloat 0.75);
                     ("probability_reorder", VFloat 0.25) ];
             VDict [ ("product_id", VStr "c"); ("reorder_required", VBool true);
                     ("confidence", VFloat 0.75);
                     ("probability_reorder", VFloat 0.75) ] ]);
        ("total_products", VInt 3);
        ("reorder_needed", VInt 2) ].
Proof. vm_compute. reflexivity. Qed.

(** C10: with an artifact loaded, the empty batch returns, and returns
    [{predictions: [], total_products: 0, reorder_needed: 0}]; nothing is
    raised and the response is a 200. *)
Theorem batch_predict_empty (m : Artifact) (g : Globals) :
  model g = Some m ->
  batch_predict [] g
  = (Return [ ("predictions", VList []);
              ("total_products", VInt 0);
              ("reorder_needed", VInt 0) ], [], g)
  /\ post_batch_predict [] g
     = (OK [ ("predictions", VList []);
             ("total_products", VInt 0);
             ("reorder_needed", VInt 0) ], g).
Proof.
  intros Hm. unfold post_batch_predict, batch_predict. simpl.
  rewrite Hm. split; reflexivity.
Qed.

Lemma batch_predict_empty_witness :
  batch_predict [] (loaded failing_artifact)
  = (Return [ ("predictions", VList []);
              ("total_products", VInt 0);
              ("reorder_needed", VInt 0) ], [], loaded failing_artifact).
Proof.
  apply (batch_predict_empty failing_artifact (loaded failing_artifact)).
  reflexivity.
Defined.

(** ** The single-record response *)

(** C5: when the artifact's probability row for the request's frame is the
    pair [[p0; p1]] (no-reorder first) and [p0 + p1] is 1, [predict_reorder]
    returns a response whose [probability_no_reorder] is [p0], whose
    [probability_reorder] is [p1], whose two probabilities add up to within
    1e-6 of 1.0, whose [confidence] is [max(probability_reorder,
    probability_no_reorder)], and whose [reorder_required] is the truth
    value of the predicted label. *)
Theorem predict_response_probabilities
    (m : Artifact) (g : Globals) (data d : ProductData)
    (y : value) (ys : list value) (p0 p1 : float) (ps : list (list float)) :
  model g = Some m ->
  fill_profit_margin data = Return d ->
  predict m (input_data d) = Return (y :: ys) ->
  predict_proba m (input_data d) = Return ([p0; p1] :: ps) ->
  PrimFloat.add p0 p1 = 1%float ->
  exists resp,
    fst (fst (predict_reorder data g)) = Return resp
    /\ probability_no_reorder resp = p0
    /\ probability_reorder resp = p1
    /\ PrimFloat.leb
         (PrimFloat.abs
            (PrimFloat.sub
               (PrimFloat.add (probability_reorder resp)
                              (probability_no_reorder resp))
               1%float))
         1e-6%float = true
    /\ confidence resp
       = max2 (probability_reorder resp) (probability_no_reorder resp)
    /\ reorder_required resp = truthy y
    /\ model_version resp = "1.0.0".
Proof.
  intros Hm Hfill Hy Hp Hsum.
  exists (PredictionResponse_init (truthy y) (max_step p0 p1) p1 p0).
  split.
  - unfold predict_reorder, predict_reorder_try. rewrite Hm, Hfill.
    unfold make_prediction. rewrite Hy. simpl. rewrite Hp. reflexivity.
  - simpl. repeat split.
    + rewrite (float_add_comm p1 p0), Hsum. reflexivity.
    + unfold max2. apply max_step_comm_sum_one. exact Hsum.
Qed.

Lemma predict_response_probabilities_witness :
  exists resp,
    fst (fst (predict_reorder (sample_product "p1" 10 15 3 5)
                (loaded sample_artifact))) = Return resp
    /\ probability_no_reorder resp = 0.25%float
    /\ probability_reorder resp = 0.75%float
    /\ confidence resp = 0.75%float
    /\ reorder_required resp = true.
Proof.
  destruct (predict_response_probabilities sample_artifact
              (loaded sample_artifact) (sample_product "p1" 10 15 3 5)
              (set_profit_margin (sample_product "p1" 10 15 3 5)
                 (Some 50%float))
              (VInt 1) [] 0.25 0.75 [])
    as (resp & Hresp & Hno & Hyes & _ & Hconf & Hreq & _);
    [ reflexivity | reflexivity | reflexivity | reflexivity | reflexivity | ].
  exists resp. rewrite Hconf, Hno, Hyes, Hreq.
  repeat split; [ exact Hresp ].
Defined.

(** ** Degraded mode *)

Lemma startup_load_failure (getenv : string -> option string)
    (joblib_load : string -> result Artifact) :
  (forall path, exists e, joblib_load path = Raise e) ->
  model (startup getenv joblib_load) = None.
Proof.
  intros Hfail. unfold startup.
  destruct (Hfail (match getenv "MODEL_PATH" with
                   | Some p => p
                   | None => "stock_reorder_model.pkl"
                   end)) as (e & He).
  rewrite He. reflexivity.
Qed.

(** C7: while no artifact is loaded, [predict_reorder] and [batch_predict]
    raise the 503 [HTTPException] at once, whatever the request, leaving the
    request objects and the globals as they were; [health_check] still
    returns, with status "degraded" and [model_loaded] false; [read_root]
    still returns, and both are answered 200. *)
Theorem degraded_mode (g : Globals) :
  model g = None ->
  (forall data,
     predict_reorder data g
     = (Raise (HTTPException 503
                 (Str "Model not loaded. Please check server configuration.")),
        data, g))
  /\ (forall products,
        batch_predict products g
        = (Raise (HTTPException 503 (Str "Model not loaded")), products, g))
  /\ (forall data, status (respond (fst (fst (predict_reorder data g))))
                   = Some 503)
  /\ (forall products,
        status (respond (fst (fst (batch_predict products g)))) = Some 503)
  /\ (forall b data, validate b = Some data ->
        post_predict b g
        = (ErrorResponse 503
             (Str "Model not loaded. Please check server configuration."), g))
  /\ (forall bs products, validate_all bs = Some products ->
        post_batch_predict bs g
        = (ErrorResponse 503 (Str "Model not loaded"), g))
  /\ get_health g
     = (OK [ ("status", VStr "degraded");
             ("model_loaded", VBool false);
             ("model_path", VStr (MODEL_PATH g)) ], g)
  /\ get_root g
     = (OK [ ("service", VStr "Stock Prediction ML Service");
             ("status", VStr "running");
             ("model_loaded", VBool false);
             ("version", VStr "1.0.0") ], g)
  /\ status (fst (get_health g)) = Some 200
  /\ status (fst (get_root g)) = Some 200.
Proof.
  intros Hm.
  unfold post_predict, post_batch_predict, predict_reorder, batch_predict,
    get_health, get_root, health_check, read_root.
  rewrite Hm. simpl. repeat split.
  - intros b data Hb. rewrite Hb. reflexivity.
  - intros bs products Hbs. rewrite Hbs. reflexivity.
Qed.

Lemma degraded_mode_witness :
  predict_reorder (sample_product "p1" 10 15 3 5) degraded
  = (Raise (HTTPException 503
              (Str "Model not loaded. Please check server configuration.")),
     sample_product "p1" 10 15 3 5, degraded)
  /\ get_health degraded
     = (OK [ ("status", VStr "degraded");
             ("model_loaded", VBool false);
             ("model_path", VStr "stock_reorder_model.pkl") ], degraded).
Proof.
  destruct (degraded_mode degraded) as (Hp & _ & _ & _ & _ & _ & Hh & _);
    [ reflexivity | ].
  split; [ exact (Hp _) | exact Hh ].
Defined.

(** ** Repeated requests *)

Lemma fill_profit_margin_idempotent (data d : ProductData) :
  fill_profit_margin data = Return d -> fill_profit_margin d = Return d.
Proof.
  intros Hfill. destruct (fill_profit_margin_Return _ _ Hfill) as (v & Hv & _).
  exact (fill_profit_margin_present d v Hv).
Qed.

(** C8: [predict_reorder] leaves the globals as it found them, so a second
    request with the same record gets the same answer; and even the record
    object the first call assigned to, handed in again, gets that answer
    and is not changed further. *)
Theorem predict_reorder_repeatable (data : ProductData) (g : Globals) :
  let out := predict_reorder data g in
  snd out = g
  /\ predict_reorder data (snd out) = out
  /\ predict_reorder (snd (fst out)) (snd out) = out
  /\ (forall b, snd (post_predict b g) = g
                /\ post_predict b (snd (post_predict b g)) = post_predict b g).
Proof.
  intros out. subst out.
  assert (Hg : snd (predict_reorder data g) = g).
  { unfold predict_reorder.
    destruct (model g); [ destruct (predict_reorder_try _ _) | ]; reflexivity. }
  assert (Hpost : forall b, snd (post_predict b g) = g).
  { intros b. unfold post_predict, predict_reorder.
    destruct (validate b); [ | reflexivity ].
    destruct (model g); [ destruct (predict_reorder_try _ _) | ]; reflexivity. }
  rewrite Hg. repeat split.
  - unfold predict_reorder. destruct (model g) as [m|]; [ | reflexivity ].
    unfold predict_reorder_try.
    destruct (fill_profit_margin data) as [d|e] eqn:Hfill; simpl.
    + rewrite (fill_profit_margin_idempotent _ _ Hfill). reflexivity.
    + rewrite Hfill. reflexivity.
  - apply Hpost.
  - rewrite Hpost. reflexivity.
Qed.

(** ** Model information *)

(** C9: with an artifact loaded, [get_model_info] returns the artifact's
    type tag next to constant feature-name lists and a constant performance
    block, so that two artifacts with the same tag get the same answer;
    without an artifact it raises the 503 [HTTPException]. *)
Theorem model_info_is_static (g : Globals) :
  (forall m, model g = Some m ->
     get_model_info g
     = (Return
          [ ("model_type", VStr (type_repr m));
            ("features",
             VDict
               [ ("numerical",
                  VList [ VStr "cost_price"; VStr "selling_price";
                          VStr "Profit margin"; VStr "reorder_frequency";
                          VStr "current_stock"; VStr "minimum_stock_level" ]);
                 ("categorical",
                  VList [ VStr "category"; VStr "brand"; VStr "supplier" ]) ]);
            ("performance",
             VDict [ ("accuracy", VFloat 0.99); ("precision", VFloat 0.98);
                     ("recall", VFloat 0.97); ("f1_score", VFloat 0.97) ]) ],
        g))
  /\ (forall m g' m', model g = Some m -> model g' = Some m' ->
        type_repr m = type_repr m' ->
        fst (get_model_info g) = fst (get_model_info g'))
  /\ (model g = None ->
      get_model_info g
      = (Raise (HTTPException 503 (Str "Model not loaded")), g)
      /\ status (fst (get_model_info_response g)) = Some 503).
Proof.
  unfold get_model_info_response, get_model_info. split; [ | split ].
  - intros m Hm. rewrite Hm. reflexivity.
  - intros m g' m' Hm Hm' Htag. rewrite Hm, Hm', Htag. reflexivity.
  - intros Hnone. rewrite Hnone. split; reflexivity.
Qed.

Lemma model_info_is_static_witness :
  fst (get_model_info (loaded sample_artifact))
  = fst (get_model_info (loaded strict_artifact))
  /\ get_model_info degraded
     = (Raise (HTTPException 503 (Str "Model not loaded")), degraded).
Proof.
  destruct (model_info_is_static (loaded sample_artifact)) as (_ & Hsame & _).
  destruct (model_info_is_static degraded) as (_ & _ & Hnone).
  split.
  - apply (Hsame sample_artifact (loaded strict_artifact) strict_artifact);
      reflexivity.
  - apply Hnone. reflexivity.
Defined.

(** * Further properties of the handlers *)

(** ** When [predict_reorder] answers *)

Lemma predict_reorder_loaded (m : Artifact) (g : Globals)
    (data : ProductData) :
  model g = Some m ->
  predict_reorder data g
  = (try_except (fst (predict_reorder_try m data))
       (server_error "Prediction error: "),
     snd (predict_reorder_try m data), g).
Proof.
  intros Hm. unfold predict_reorder. rewrite Hm.
  destruct (predict_reorder_try m data). reflexivity.
Qed.

Lemma try_except_Return {A} (body : result A) (prefix : string) (a : A) :
  try_except body (server_error prefix) = Return a <-> body = Return a.
Proof.
  destruct body as [a'|e]; simpl; split; intros H;
    try exact H; discriminate H.
Qed.

(** What it takes for lines 117-126 to return. *)
Lemma make_prediction_Return (m : Artifact) (frame : DataFrame)
    (resp : PredictionResponse) :
  make_prediction m frame = Return resp <->
  exists y ys p0 p1 rest ps c,
    predict m frame = Return (y :: ys)
    /\ predict_proba m frame = Return ((p0 :: p1 :: rest) :: ps)
    /\ Py.max (p0 :: p1 :: rest) = Return c
    /\ resp = PredictionResponse_init (truthy y) c p1 p0.
Proof.
  unfold make_prediction, getitem. split.
  - destruct (predict m frame) as [[|y ys]|]; simpl; try discriminate.
    destruct (predict_proba m frame) as [[|[|p0 [|p1 rest]] ps]|]; simpl;
      try discriminate.
    intros [= <-]. exists y, ys, p0, p1, rest, ps. eexists.
    repeat split.
  - intros (y & ys & p0 & p1 & rest & ps & c & Hy & Hp & [= <-] & ->).
    rewrite Hy. simpl. rewrite Hp. reflexivity.
Qed.

(** X1: with an artifact loaded, [predict_reorder] returns a response
    exactly when the margin can be filled, the artifact returns at least one
    label and a first probability row of at least two entries; the response
    is then built from the first label, the first two entries of that row
    and the maximum over the whole row; further labels and rows are
    ignored. *)
Theorem predict_returns_iff
    (m : Artifact) (g : Globals) (data : ProductData)
    (resp : PredictionResponse) :
  model g = Some m ->
  (fst (fst (predict_reorder data g)) = Return resp <->
   exists d y ys p0 p1 rest ps c,
     fill_profit_margin data = Return d
     /\ predict m (input_data d) = Return (y :: ys)
     /\ predict_proba m (input_data d) = Return ((p0 :: p1 :: rest) :: ps)
     /\ Py.max (p0 :: p1 :: rest) = Return c
     /\ resp = PredictionResponse_init (truthy y) c p1 p0).
Proof.
  intros Hm. rewrite (predict_reorder_loaded m g data Hm). simpl.
  rewrite try_except_Return. unfold predict_reorder_try.
  destruct (fill_profit_margin data) as [d|e]; simpl.
  - rewrite make_prediction_Return. split.
    + intros (y & ys & p0 & p1 & rest & ps & c & H). exists d; eauto 10.
    + intros (d' & y & ys & p0 & p1 & rest & ps & c & [= <-] & H). eauto 10.
  - split; [ discriminate | ].
    intros (d' & y & ys & p0 & p1 & rest & ps & c & Hd & _). discriminate Hd.
Qed.

Lemma predict_returns_iff_witness :
  fst (fst (predict_reorder (sample_product "p1" 10 15 3 5)
              (loaded three_class_artifact)))
  = Return (PredictionResponse_init true 0.625 0.25 0.125).
Proof.
  apply (predict_returns_iff three_class_artifact
           (loaded three_class_artifact) (sample_product "p1" 10 15 3 5));
    [ reflexivity | ].
  exists (set_profit_margin (sample_product "p1" 10 15 3 5) (Some 50%float)),
    (VInt 2), [], 0.125%float, 0.25%float, [0.625%float], [], 0.625%float.
  repeat split.
Defined.

(** X2: of the exceptions the embedding has, all of them derived from
    [Exception], none leaves [predict_reorder] as it is: the handler
    returns a response, raises the 503 [HTTPException], or raises the 500
    [HTTPException] whose detail is "Prediction error: " followed by the
    very exception its [try] block raised; the 503 is raised exactly when
    no artifact is loaded.  Exceptions outside [Exception]
    ([KeyboardInterrupt], [SystemExit]), which [except Exception] lets
    through, are not part of the embedding and nothing is said of them. *)
Theorem predict_reorder_outcomes (data : ProductData) (g : Globals) :
  predict_outcome (fst (fst (predict_reorder data g)))
  /\ (fst (fst (predict_reorder data g))
      = Raise (HTTPException 503
                 (Str "Model not loaded. Please check server configuration."))
      <-> model g = None)
  /\ (forall m e,
        model g = Some m ->
        fst (predict_reorder_try m data) = Raise e ->
        fst (fst (predict_reorder data g))
        = Raise (HTTPException 500 (FStr "Prediction error: " e)))
  /\ (forall m resp,
        model g = Some m ->
        fst (predict_reorder_try m data) = Return resp ->
        fst (fst (predict_reorder data g)) = Return resp).
Proof.
  split; [ | split; [ | split ] ].
  - unfold predict_reorder. destruct (model g) as [m|];
      [ destruct (predict_reorder_try m data) as [[resp|e] d] | ];
      constructor.
  - unfold predict_reorder. destruct (model g) as [m|];
      [ destruct (predict_reorder_try m data) as [[resp|e] d] | ];
      simpl; split; intros H; try discriminate H; reflexivity.
  - intros m e Hm Htry. rewrite (predict_reorder_loaded m g data Hm).
    simpl. rewrite Htry. reflexivity.
  - intros m resp Hm Htry. rewrite (predict_reorder_loaded m g data Hm).
    simpl. rewrite Htry. reflexivity.
Qed.

(** ** Division by zero inside the handlers *)

Lemma fill_profit_margin_zero_cost (data : ProductData) :
  profit_margin data = None ->
  PrimFloat.eqb (cost_price data) 0%float = true ->
  fill_profit_margin data = Raise ZeroDivisionError.
Proof.
  intros Hpm Hz. unfold fill_profit_margin, truediv. rewrite Hpm, Hz.
  reflexivity.
Qed.

(** X3: a record that reaches a handler with a zero cost price and no
    margin makes the division raise; [predict_reorder] and [batch_predict]
    turn that into their 500 [HTTPException] carrying [ZeroDivisionError],
    a server error, without consulting the artifact and without assigning
    to the record. *)
Theorem zero_cost_inside_handlers
    (m : Artifact) (g : Globals) (data : ProductData) :
  model g = Some m ->
  profit_margin data = None ->
  PrimFloat.eqb (cost_price data) 0%float = true ->
  predict_reorder data g
  = (Raise (HTTPException 500 (FStr "Prediction error: " ZeroDivisionError)),
     data, g)
  /\ batch_predict [data] g
     = (Raise (HTTPException 500
                 (FStr "Batch prediction error: " ZeroDivisionError)),
        [data], g)
  /\ client_error (respond (fst (fst (predict_reorder data g)))) = false.
Proof.
  intros Hm Hpm Hz.
  pose proof (fill_profit_margin_zero_cost data Hpm Hz) as Hfill.
  assert (Hp : predict_reorder data g
               = (Raise (HTTPException 500
                           (FStr "Prediction error: " ZeroDivisionError)),
                  data, g)).
  { unfold predict_reorder, predict_reorder_try. rewrite Hm, Hfill.
    reflexivity. }
  split; [ exact Hp | ]. split.
  - unfold batch_predict, batch_predict_try. rewrite Hm. simpl.
    unfold batch_predict_item. rewrite Hfill. reflexivity.
  - rewrite Hp. reflexivity.
Qed.

Lemma zero_cost_inside_handlers_witness :
  predict_reorder zero_cost_product (loaded sample_artifact)
  = (Raise (HTTPException 500 (FStr "Prediction error: " ZeroDivisionError)),
     zero_cost_product, loaded sample_artifact).
Proof.
  apply (zero_cost_inside_handlers sample_artifact (loaded sample_artifact)
           zero_cost_product); reflexivity.
Defined.

(** ** More on the batch loop *)

Lemma batch_predict_loop_all (m : Artifact) (products : list ProductData)
    (rs : list dict) :
  Forall2 (fun p r => fst (batch_predict_item m p) = Return r) products rs ->
  forall results,
    fst (batch_predict_loop m products results) = Return (results ++ rs).
Proof.
  induction 1 as [|p r ps rs Hp _ IH]; intros results; simpl.
  - rewrite app_nil_r. reflexivity.
  - destruct (batch_predict_item m p) as [out p']. simpl in Hp. subst out.
    specialize (IH (results ++ [r])).
    destruct (batch_predict_loop m ps (results ++ [r])) as [out rest].
    simpl in *. rewrite IH, <- app_assoc. reflexivity.
Qed.

Lemma batch_predict_try_all (m : Artifact) (products : list ProductData)
    (rs : list dict) :
  Forall2 (fun p r => fst (batch_predict_item m p) = Return r) products rs ->
  fst (batch_predict_try m products)
  = Return (batch_response rs (len products) (len (filter flagged rs))).
Proof.
  intros Hall. unfold batch_predict_try.
  pose proof (batch_predict_loop_all m products rs Hall []) as Hloop.
  pose proof (batch_predict_loop_length m products []) as Hlen.
  destruct (batch_predict_loop m products []) as [out products'].
  simpl in Hloop, Hlen. subst out. simpl.
  rewrite (sum_reorder_counts rs
             (Forall2_entries_keyed m _ _ (Forall2_item_entries m _ _ Hall))).
  simpl. unfold batch_response, len. rewrite Hlen. reflexivity.
Qed.

Lemma batch_predict_loop_first_failure (m : Artifact)
    (pre : list ProductData) (p : ProductData) (post : list ProductData)
    (e : exn) :
  Forall (item_returns m) pre ->
  fst (batch_predict_item m p) = Raise e ->
  forall results,
    fst (batch_predict_loop m (pre ++ p :: post) results) = Raise e
    /\ exists pre' p',
         snd (batch_predict_loop m (pre ++ p :: post) results)
         = pre' ++ p' :: post
         /\ List.length pre' = List.length pre.
Proof.
  intros Hpre Hp. induction Hpre as [|q pre (r & Hq) _ IH]; intros results;
    simpl.
  - destruct (batch_predict_item m p) as [out p']. simpl in Hp. subst out.
    split; [ reflexivity | ]. exists [], p'. split; reflexivity.
  - destruct (batch_predict_item m q) as [out q']. simpl in Hq. subst out.
    destruct (IH (results ++ [r])) as (Hfst & pre' & p' & Hsnd & Hlen).
    destruct (batch_predict_loop m (pre ++ p :: post) (results ++ [r]))
      as [out rest].
    simpl in *. split; [ exact Hfst | ].
    exists (q' :: pre'), p'. rewrite Hsnd. simpl. rewrite Hlen.
    split; reflexivity.
Qed.

(** X4: in a batch the first product whose turn raises decides the answer:
    the handler raises its 500 [HTTPException] with that product's
    exception, whatever the products after it are, and hands those back
    untouched. *)
Theorem batch_first_failure_wins
    (m : Artifact) (g : Globals) (pre : list ProductData) (p : ProductData)
    (post : list ProductData) (e : exn) :
  model g = Some m ->
  Forall (item_returns m) pre ->
  fst (batch_predict_item m p) = Raise e ->
  fst (fst (batch_predict (pre ++ p :: post) g))
  = Raise (HTTPException 500 (FStr "Batch prediction error: " e))
  /\ exists pre' p',
       snd (fst (batch_predict (pre ++ p :: post) g)) = pre' ++ p' :: post
       /\ List.length pre' = List.length pre.
Proof.
  intros Hm Hpre Hp. unfold batch_predict, batch_predict_try. rewrite Hm.
  destruct (batch_predict_loop_first_failure m pre p post e Hpre Hp [])
    as (Hfst & pre' & p' & Hsnd & Hlen).
  destruct (batch_predict_loop m (pre ++ p :: post) []) as [out rest].
  simpl in *. subst out. simpl.
  split; [ reflexivity | ]. exists pre', p'. split; assumption.
Qed.

Lemma batch_first_failure_wins_witness :
  fst (fst (batch_predict
              [ sample_product "a" 10 15 3 5; unknown_product;
                zero_cost_product ]
              (loaded strict_artifact)))
  = Raise (HTTPException 500
             (FStr "Batch prediction error: "
                (ArtifactError "Found unknown categories"))).
Proof.
  apply (batch_first_failure_wins strict_artifact (loaded strict_artifact)
           [ sample_product "a" 10 15 3 5 ] unknown_product
           [ zero_cost_product ]);
    [ reflexivity | | reflexivity ].
  repeat constructor. eexists. vm_compute. reflexivity.
Defined.

(** ** The batch against the single-record handler *)

(** One turn of the batch loop is the [try] block of [predict_reorder]
    followed by the reshaping of its response. *)
Lemma batch_predict_item_as_predict (m : Artifact) (p : ProductData) :
  batch_predict_item m p
  = (bind (fst (predict_reorder_try m p))
          (fun resp => Return (entry_of p resp)),
     snd (predict_reorder_try m p)).
Proof.
  unfold batch_predict_item, predict_reorder_try.
  destruct (fill_profit_margin p) as [d|e] eqn:Hfill; simpl; [ | reflexivity ].
  destruct (fill_profit_margin_Return _ _ Hfill) as (v & _ & Hd).
  f_equal. unfold batch_entry, make_prediction, getitem, entry_of.
  replace (product_id d) with (product_id p) by (rewrite Hd; reflexivity).
  destruct (predict m (input_data d)) as [[|y ys]|]; simpl; try reflexivity.
  destruct (predict_proba m (input_data d)) as [[|[|p0 [|p1 rest]] ps]|];
    reflexivity.
Qed.

Lemma predict_reorder_Return_try (m : Artifact) (g : Globals)
    (p : ProductData) (resp : PredictionResponse) :
  model g = Some m ->
  fst (fst (predict_reorder p g)) = Return resp ->
  fst (predict_reorder_try m p) = Return resp.
Proof.
  intros Hm. rewrite (predict_reorder_loaded m g p Hm). simpl.
  apply try_except_Return.
Qed.

Lemma count_entries (products : list ProductData)
    (resps : list PredictionResponse) :
  List.length products = List.length resps ->
  filter flagged
    (map (fun pr => entry_of (fst pr) (snd pr)) (combine products resps))
  = map (fun pr => entry_of (fst pr) (snd pr))
      (filter (fun pr => reorder_required (snd pr)) (combine products resps)).
Proof.
  revert resps. induction products as [|p ps IH]; intros [|resp resps] Hlen;
    try discriminate; simpl; [ reflexivity | ].
  injection Hlen as Hlen. rewrite (IH resps Hlen).
  unfold flagged at 1. simpl. destruct (reorder_required resp); reflexivity.
Qed.

Lemma count_combine_snd {A B} (f : B -> bool) (xs : list A) (ys : list B) :
  List.length xs = List.length ys ->
  List.length (filter (fun pr => f (snd pr)) (combine xs ys))
  = List.length (filter f ys).
Proof.
  revert ys. induction xs as [|x xs IH]; intros [|y ys] Hlen;
    try discriminate; simpl; [ reflexivity | ].
  injection Hlen as Hlen. destruct (f y); simpl; rewrite (IH ys Hlen);
    reflexivity.
Qed.

(** X5: a batch whose every product, sent to [predict_reorder] on its own,
    gets a response, is answered with exactly those responses, in order,
    each cut down to [product_id], [reorder_required], [confidence] and
    [probability_reorder]; [reorder_needed] counts the responses that
    require a reorder. *)
Theorem batch_agrees_with_predict
    (m : Artifact) (g : Globals) (products : list ProductData)
    (resps : list PredictionResponse) :
  model g = Some m ->
  Forall2 (fun p resp => fst (fst (predict_reorder p g)) = Return resp)
          products resps ->
  fst (fst (batch_predict products g))
  = Return
      [ ("predictions",
         VList (map (fun pr => VDict (entry_of (fst pr) (snd pr)))
                    (combine products resps)));
        ("total_products", VInt (len products));
        ("reorder_needed", VInt (len (filter reorder_required resps))) ].
Proof.
  intros Hm Hall.
  assert (Hlen : List.length products = List.length resps)
    by (eapply Forall2_length; eassumption).
  assert (Hitems :
            Forall2 (fun p r => fst (batch_predict_item m p) = Return r)
              products
              (map (fun pr => entry_of (fst pr) (snd pr))
                   (combine products resps))).
  { clear Hlen. induction Hall as [|p resp ps resps Hp _ IH]; simpl;
      constructor; [ | exact IH ].
    rewrite batch_predict_item_as_predict. simpl.
    rewrite (predict_reorder_Return_try m g p resp Hm Hp). reflexivity. }
  rewrite (batch_predict_loaded m g products Hm).
  rewrite (batch_predict_try_all m products _ Hitems). simpl.
  unfold batch_response. rewrite map_map.
  rewrite (count_entries products resps Hlen). unfold len.
  rewrite length_map, (count_combine_snd reorder_required _ _ Hlen).
  reflexivity.
Qed.

Lemma batch_agrees_with_predict_witness :
  fst (fst (batch_predict three_products (loaded sample_artifact)))
  = Return
      [ ("predictions",
         VList (map (fun pr => VDict (entry_of (fst pr) (snd pr)))
                    (combine three_products
                       [ PredictionResponse_init true 0.75 0.75 0.25;
                         PredictionResponse_init false 0.75 0.25 0.75;
                         PredictionResponse_init true 0.75 0.75 0.25 ])));
        ("total_products", VInt 3);
        ("reorder_needed", VInt 2) ].
Proof.
  apply (batch_agrees_with_predict sample_artifact (loaded sample_artifact)
           three_products
           [ PredictionResponse_init true 0.75 0.75 0.25;
             PredictionResponse_init false 0.75 0.25 0.75;
             PredictionResponse_init true 0.75 0.75 0.25 ]);
    [ reflexivity | ].
  repeat constructor.
Defined.

(** ** What the handlers do to the request records *)

Lemma fill_profit_margin_filled (data d : ProductData) :
  fill_profit_margin data = Return d -> margin_filled data d.
Proof.
  unfold fill_profit_margin, truediv, margin_filled.
  destruct (profit_margin data) as [v|] eqn:Hpm.
  - intros [= <-]. left. reflexivity.
  - destruct (PrimFloat.eqb (cost_price data) 0%float); simpl;
      [ discriminate | ].
    intros [= <-]. right. split; reflexivity.
Qed.

Lemma batch_predict_item_filled (m : Artifact) (p : ProductData) :
  margin_filled p (snd (batch_predict_item m p)).
Proof.
  unfold batch_predict_item.
  destruct (fill_profit_margin p) as [d|e] eqn:Hfill; simpl.
  - exact (fill_profit_margin_filled _ _ Hfill).
  - left. reflexivity.
Qed.

Lemma batch_predict_loop_filled (m : Artifact) (products : list ProductData) :
  forall results,
    Forall2 margin_filled products
      (snd (batch_predict_loop m products results)).
Proof.
  induction products as [|p ps IH]; intros results; simpl; [ constructor | ].
  pose proof (batch_predict_item_filled m p) as Hp.
  destruct (batch_predict_item m p) as [[r|e] p']; simpl in Hp.
  - specialize (IH (results ++ [r])).
    destruct (batch_predict_loop m ps (results ++ [r])) as [out rest].
    simpl in *. constructor; assumption.
  - constructor; [ exact Hp | ].
    clear. induction ps; constructor; [ left; reflexivity | assumption ].
Qed.

(** X6: neither handler changes any attribute of a request record except
    [profit_margin], and that one only from absent to the derived value:
    every record comes back as it was or with its missing margin filled
    in; a margin that was supplied is never overwritten. *)
Theorem handlers_only_fill_margin (g : Globals) :
  (forall data, margin_filled data (snd (fst (predict_reorder data g))))
  /\ (forall products,
        Forall2 margin_filled products (snd (fst (batch_predict products g))))
  /\ (forall data v, profit_margin data = Some v ->
        snd (fst (predict_reorder data g)) = data).
Proof.
  assert (Hone : forall data,
             margin_filled data (snd (fst (predict_reorder data g)))).
  { intros data. unfold predict_reorder.
    destruct (model g) as [m|]; [ | left; reflexivity ].
    unfold predict_reorder_try.
    destruct (fill_profit_margin data) as [d|e] eqn:Hfill; simpl.
    - exact (fill_profit_margin_filled _ _ Hfill).
    - left. reflexivity. }
  split; [ exact Hone | ]. split.
  - intros products. unfold batch_predict.
    destruct (model g) as [m|].
    + unfold batch_predict_try.
      pose proof (batch_predict_loop_filled m products []) as Hloop.
      destruct (batch_predict_loop m products []) as [out rest]. exact Hloop.
    + simpl. clear. induction products; constructor;
        [ left; reflexivity | assumption ].
  - intros data v Hv. destruct (Hone data) as [Heq | (Hnone & _)];
      [ exact Heq | rewrite Hv in Hnone; discriminate ].
Qed.

(** ** Repeating a batch *)

Lemma batch_predict_item_again (m : Artifact) (p : ProductData) :
  batch_predict_item m (snd (batch_predict_item m p)) = batch_predict_item m p.
Proof.
  unfold batch_predict_item.
  destruct (fill_profit_margin p) as [d|e] eqn:Hfill; simpl.
  - rewrite (fill_profit_margin_idempotent _ _ Hfill). reflexivity.
  - rewrite Hfill. reflexivity.
Qed.

Lemma batch_predict_loop_again (m : Artifact) (products : list ProductData) :
  forall results,
    batch_predict_loop m (snd (batch_predict_loop m products results)) results
    = batch_predict_loop m products results.
Proof.
  induction products as [|p ps IH]; intros results; simpl; [ reflexivity | ].
  pose proof (batch_predict_item_again m p) as Hp.
  destruct (batch_predict_item m p) as [[r|e] p'] eqn:Hitem; simpl in Hp.
  - specialize (IH (results ++ [r])).
    destruct (batch_predict_loop m ps (results ++ [r])) as [out rest].
    simpl in *. rewrite Hp, IH. reflexivity.
  - simpl. rewrite Hp. reflexivity.
Qed.

(** X7: [batch_predict] leaves the globals as they are, and the list of
    records it has assigned to, sent again, gets the same answer and is not
    changed further: the margins it filled in are the ones it would derive
    again. *)
Theorem batch_predict_repeatable (products : list ProductData) (g : Globals) :
  let out := batch_predict products g in
  snd out = g
  /\ batch_predict products (snd out) = out
  /\ batch_predict (snd (fst out)) (snd out) = out.
Proof.
  intros out. subst out.
  assert (Hg : snd (batch_predict products g) = g).
  { unfold batch_predict.
    destruct (model g); [ destruct (batch_predict_try _ _) | ]; reflexivity. }
  rewrite Hg. repeat split.
  unfold batch_predict. destruct (model g) as [m|]; [ | reflexivity ].
  unfold batch_predict_try.
  pose proof (batch_predict_loop_again m products []) as Hagain.
  pose proof (batch_predict_loop_length m products []) as Hlen.
  destruct (batch_predict_loop m products []) as [out rest]. simpl in *.
  rewrite Hagain. reflexivity.
Qed.

(** ** Counts and concatenation of batches *)

Lemma map_VDict_inj (rs rs' : list dict) :
  map VDict rs = map VDict rs' -> rs = rs'.
Proof.
  revert rs'. induction rs as [|r rs IH]; intros [|r' rs'] H;
    try discriminate; [ reflexivity | ].
  injection H as Hr Hrs. rewrite Hr, (IH rs' Hrs). reflexivity.
Qed.

Lemma filter_length_bound {A} (f : A -> bool) (xs : list A) :
  (List.length (filter f xs) <= List.length xs)%nat.
Proof.
  induction xs as [|x xs IH]; simpl; [ lia | ].
  destruct (f x); simpl; lia.
Qed.

(** A batch that returns has a loaded artifact behind it and an entry for
    each product. *)
Lemma batch_predict_Return_items (g : Globals) (products : list ProductData)
    (body : dict) :
  fst (fst (batch_predict products g)) = Return body ->
  exists m rs,
    model g = Some m
    /\ Forall2 (fun p r => fst (batch_predict_item m p) = Return r)
               products rs
    /\ body = batch_response rs (len products) (len (filter flagged rs)).
Proof.
  destruct (model g) as [m|] eqn:Hm.
  - rewrite (batch_predict_loaded m g products Hm).
    destruct (batch_predict_try_cases m products) as
      [(rs & Hall & Htry) | (pre & p & post & rs & e & _ & _ & _ & Htry)];
      rewrite Htry; simpl; [ | discriminate ].
    intros [= <-]. exists m, rs. auto.
  - unfold batch_predict. rewrite Hm. discriminate.
Qed.

(** X8: whenever [batch_predict] returns, the answer has as many
    predictions as there were products, [total_products] is that number,
    and [reorder_needed] is the number of predictions flagged for reorder,
    so it lies between 0 and [total_products]. *)
Theorem batch_answer_counts (g : Globals) (products : list ProductData)
    (body : dict) :
  fst (fst (batch_predict products g)) = Return body ->
  exists rs n,
    body = [ ("predictions", VList (map VDict rs));
             ("total_products", VInt (len products));
             ("reorder_needed", VInt n) ]
    /\ List.length rs = List.length products
    /\ n = len (filter flagged rs)
    /\ 0 <= n <= len products.
Proof.
  intros Hret.
  destruct (batch_predict_Return_items g products body Hret)
    as (m & rs & _ & Hall & ->).
  pose proof (Forall2_length Hall) as Hlen.
  exists rs, (len (filter flagged rs)).
  split; [ reflexivity | ]. split; [ symmetry; exact Hlen | ].
  split; [ reflexivity | ].
  unfold len. pose proof (filter_length_bound flagged rs). lia.
Qed.

Lemma batch_answer_counts_witness :
  exists rs n,
    map VDict rs = map VDict three_entries
    /\ List.length rs = 3%nat
    /\ n = 2
    /\ n = len (filter flagged rs)
    /\ 0 <= n <= 3.
Proof.
  destruct (batch_answer_counts (loaded sample_artifact) three_products
              (batch_response three_entries 3 2))
    as (rs & n & Hbody & Hlen & Hn & Hbound); [ vm_compute; reflexivity | ].
  injection Hbody as Hrs Hn2.
  exists rs, n.
  split; [ symmetry; exact Hrs | ].
  split; [ exact Hlen | ].
  split; [ symmetry; exact Hn2 | ].
  split; [ exact Hn | exact Hbound ].
Defined.

(** X9: when two batches are each answered, the batch made of the first
    followed by the second is answered too, with the predictions of the
    first followed by those of the second and with both counts added. *)
Theorem batch_of_concatenation
    (g : Globals) (xs ys : list ProductData) (rs1 rs2 : list dict)
    (n1 n2 : Z) :
  fst (fst (batch_predict xs g)) = Return (batch_response rs1 (len xs) n1) ->
  fst (fst (batch_predict ys g)) = Return (batch_response rs2 (len ys) n2) ->
  fst (fst (batch_predict (xs ++ ys) g))
  = Return (batch_response (rs1 ++ rs2) (len xs + len ys) (n1 + n2)).
Proof.
  intros Hx Hy.
  destruct (batch_predict_Return_items g xs _ Hx) as (m & r1 & Hm & Hall1 & E1).
  destruct (batch_predict_Return_items g ys _ Hy) as (m' & r2 & Hm' & Hall2 & E2).
  rewrite Hm in Hm'. injection Hm' as <-.
  injection E1 as E1 N1. injection E2 as E2 N2.
  apply map_VDict_inj in E1, E2. subst r1 r2.
  rewrite (batch_predict_loaded m g (xs ++ ys) Hm).
  rewrite (batch_predict_try_all m (xs ++ ys) (rs1 ++ rs2)
             (Forall2_app Hall1 Hall2)).
  simpl. unfold batch_response, len in *.
  rewrite filter_app, !length_app, !Nat2Z.inj_add, N1, N2. reflexivity.
Qed.

Lemma batch_of_concatenation_witness :
  fst (fst (batch_predict (three_products ++ three_products)
              (loaded sample_artifact)))
  = Return (batch_response (three_entries ++ three_entries) (3 + 3) (2 + 2)).
Proof.
  apply (batch_of_concatenation (loaded sample_artifact)
           three_products three_products three_entries three_entries 2 2);
    vm_compute; reflexivity.
Defined.

(** ** The product identifier *)

Lemma fill_profit_margin_set_product_id (data : ProductData)
    (id : option string) :
  fill_profit_margin (set_product_id data id)
  = bind (fill_profit_margin data) (fun d => Return (set_product_id d id)).
Proof.
  unfold fill_profit_margin, truediv. simpl.
  destruct (profit_margin data); [ reflexivity | ].
  destruct (PrimFloat.eqb (cost_price data) 0%float); reflexivity.
Qed.

(** X10: [product_id] takes no part in a prediction: changing it changes
    neither the frame given to the artifact nor the outcome of
    [predict_reorder]; in a batch it changes the [product_id] echoed in the
    entry and nothing else. *)
Theorem product_id_is_not_a_feature (data : ProductData) (id : option string) :
  input_data (set_product_id data id) = input_data data
  /\ (forall g, fst (fst (predict_reorder (set_product_id data id) g))
                = fst (fst (predict_reorder data g)))
  /\ (forall m, fst (batch_predict_item m (set_product_id data id))
                = bind (fst (predict_reorder_try m data))
                    (fun resp =>
                       Return (entry_of (set_product_id data id) resp))).
Proof.
  assert (Htry : forall m,
             fst (predict_reorder_try m (set_product_id data id))
             = fst (predict_reorder_try m data)).
  { intros m. unfold predict_reorder_try.
    rewrite fill_profit_margin_set_product_id.
    destruct (fill_profit_margin data) as [d|e]; reflexivity. }
  split; [ reflexivity | ]. split.
  - intros g. unfold predict_reorder. destruct (model g) as [m|];
      [ | reflexivity ].
    specialize (Htry m).
    destruct (predict_reorder_try m (set_product_id data id)),
             (predict_reorder_try m data).
    simpl in *. rewrite Htry. reflexivity.
  - intros m. rewrite batch_predict_item_as_predict. simpl.
    rewrite Htry. reflexivity.
Qed.

(** ** The confidence score *)

Section FloatOrder.

Lemma SFleb_trans (a b c : spec_float) :
  SFleb a b = true -> SFleb b c = true -> SFleb a c = true.
Proof.
  unfold SFleb.
  destruct a as [sa|sa| |sa ma ea], b as [sb|sb| |sb mb eb],
           c as [sc|sc| |sc mc ec]; simpl;
    try discriminate; try reflexivity;
    try (destruct sa, sb, sc; simpl; discriminate || reflexivity);
    try (destruct sa, sb; simpl; discriminate || reflexivity);
    try (destruct sa, sc; simpl; discriminate || reflexivity);
    try (destruct sb, sc; simpl; discriminate || reflexivity).
  all: change (Pos.compare_cont Eq ?x ?y) with (Pos.compare x y).
  all: destruct sa, sb, sc; simpl; try discriminate; try reflexivity.
  all: destruct (Z.compare_spec ea eb), (Z.compare_spec eb ec),
         (Z.compare_spec ea ec); simpl; try discriminate; try reflexivity;
       try lia; subst.
  all: destruct (Pos.compare_spec ma mb), (Pos.compare_spec mb mc),
         (Pos.compare_spec ma mc); simpl; try discriminate; try reflexivity;
       try lia.
Qed.

Lemma float_leb_trans (x y z : float) :
  PrimFloat.leb x y = true -> PrimFloat.leb y z = true ->
  PrimFloat.leb x z = true.
Proof. rewrite !leb_spec. apply SFleb_trans. Qed.

Lemma float_ltb_leb (x y : float) :
  PrimFloat.ltb x y = true -> PrimFloat.leb x y = true.
Proof.
  rewrite ltb_spec, leb_spec. unfold SFltb, SFleb.
  destruct (SFcompare (Prim2SF x) (Prim2SF y)) as [[]|];
    discriminate || reflexivity.
Qed.

Lemma SFcompare_None (a b : spec_float) :
  SFcompare a b = None -> SFcompare a a = None \/ SFcompare b b = None.
Proof.
  destruct a as [sa|sa| |sa ma ea], b as [sb|sb| |sb mb eb]; simpl;
    try discriminate; auto.
Qed.

(** Of two floats that are not NaN, the one that is not smaller is at least
    as large. *)
Lemma float_not_ltb_leb (x y : float) :
  PrimFloat.eqb x x = true -> PrimFloat.eqb y y = true ->
  PrimFloat.ltb x y = false -> PrimFloat.leb y x = true.
Proof.
  rewrite !eqb_spec, ltb_spec, leb_spec. unfold SFeqb, SFltb, SFleb.
  intros Hx Hy. rewrite (SFcompare_antisym (Prim2SF x) (Prim2SF y)).
  destruct (SFcompare (Prim2SF x) (Prim2SF y)) as [[]|] eqn:Hc; simpl;
    try discriminate; try reflexivity.
  destruct (SFcompare_None _ _ Hc) as [H | H]; rewrite H in *; discriminate.
Qed.

Lemma float_leb_self (x y : float) :
  PrimFloat.leb x y = true ->
  PrimFloat.eqb x x = true /\ PrimFloat.eqb y y = true.
Proof.
  rewrite leb_spec, !eqb_spec. unfold SFleb, SFeqb.
  destruct (Prim2SF x) as [sa|sa| |sa ma ea],
           (Prim2SF y) as [sb|sb| |sb mb eb]; simpl;
    try discriminate; intros _;
    change (Pos.compare_cont Eq ?u ?v) with (Pos.compare u v);
    rewrite ?Z.compare_refl, ?Pos.compare_refl;
    split; try reflexivity;
    try (destruct sa; reflexivity); try (destruct sb; reflexivity).
Qed.

Lemma float_leb_refl (x : float) :
  PrimFloat.eqb x x = true -> PrimFloat.leb x x = true.
Proof.
  rewrite eqb_spec, leb_spec. unfold SFeqb, SFleb.
  destruct (SFcompare (Prim2SF x) (Prim2SF x)) as [[]|];
    discriminate || reflexivity.
Qed.

End FloatOrder.

(** The maximum is one of the items. *)
Lemma max_fold_In (rest : list float) :
  forall x, In (fold_left max_step rest x) (x :: rest).
Proof.
  induction rest as [|y rest IH]; intros x; simpl; [ auto | ].
  destruct (IH (max_step x y)) as [H | H]; [ | auto ].
  rewrite <- H. unfold max_step. destruct (PrimFloat.ltb x y); auto.
Qed.

(** Without NaN among the items, the maximum is at least each of them. *)
Lemma max_fold_upper (rest : list float) :
  forall x,
    PrimFloat.eqb x x = true ->
    Forall (fun p => PrimFloat.eqb p p = true) rest ->
    Forall (fun p => PrimFloat.leb p (fold_left max_step rest x) = true)
           (x :: rest).
Proof.
  induction rest as [|y rest IH]; intros x Hx Hrest; simpl.
  - constructor; [ apply float_leb_refl; exact Hx | constructor ].
  - inversion Hrest as [|y' rest' Hy Hrest']; subst.
    assert (Hstep : PrimFloat.eqb (max_step x y) (max_step x y) = true
                    /\ PrimFloat.leb x (max_step x y) = true
                    /\ PrimFloat.leb y (max_step x y) = true).
    { unfold max_step. destruct (PrimFloat.ltb x y) eqn:Hlt.
      - split; [ exact Hy | ].
        split; [ apply float_ltb_leb; exact Hlt
               | apply float_leb_refl; exact Hy ].
      - split; [ exact Hx | ].
        split; [ apply float_leb_refl; exact Hx
               | apply float_not_ltb_leb; assumption ]. }
    destruct Hstep as (Hm & Hxm & Hym).
    pose proof (IH (max_step x y) Hm Hrest') as Hall.
    inversion Hall as [|m' rest'' Hmf Hrestf]; subst.
    constructor; [ exact (float_leb_trans _ _ _ Hxm Hmf) | ].
    constructor; [ exact (float_leb_trans _ _ _ Hym Hmf) | exact Hrestf ].
Qed.

Lemma in_unit_interval_not_nan (p : float) :
  in_unit_interval p = true -> PrimFloat.eqb p p = true.
Proof.
  unfold in_unit_interval. intros H. apply andb_prop in H.
  destruct H as (H0 & _). exact (proj2 (float_leb_self _ _ H0)).
Qed.

(** X11: when [predict_reorder] returns and every probability of the row
    it read lies in [0, 1], the response's [confidence] is one of those
    probabilities, is at least every one of them, and [confidence],
    [probability_reorder] and [probability_no_reorder] all lie in [0, 1]. *)
Theorem confidence_bounds
    (m : Artifact) (g : Globals) (data d : ProductData)
    (probs : list float) (ps : list (list float))
    (resp : PredictionResponse) :
  model g = Some m ->
  fill_profit_margin data = Return d ->
  predict_proba m (input_data d) = Return (probs :: ps) ->
  Forall (fun p => in_unit_interval p = true) probs ->
  fst (fst (predict_reorder data g)) = Return resp ->
  In (confidence resp) probs
  /\ Forall (fun p => PrimFloat.leb p (confidence resp) = true) probs
  /\ in_unit_interval (confidence resp) = true
  /\ in_unit_interval (probability_reorder resp) = true
  /\ in_unit_interval (probability_no_reorder resp) = true.
Proof.
  intros Hm Hfill Hp Hunit Hret.
  rewrite (predict_reorder_loaded m g data Hm) in Hret. simpl in Hret.
  apply try_except_Return in Hret. unfold predict_reorder_try in Hret.
  rewrite Hfill in Hret. simpl in Hret.
  apply make_prediction_Return in Hret.
  destruct Hret as (y & ys & p0 & p1 & rest & ps' & c & _ & Hp' & Hc & ->).
  rewrite Hp in Hp'. injection Hp' as -> _.
  injection Hc as <-. simpl.
  pose proof (max_fold_In (p1 :: rest) p0) as Hin.
  assert (Hnan : Forall (fun p => PrimFloat.eqb p p = true) (p0 :: p1 :: rest)).
  { eapply Forall_impl; [ | exact Hunit ].
    intros p. apply in_unit_interval_not_nan. }
  inversion Hnan as [|x xs Hx Hxs]; subst.
  pose proof (max_fold_upper (p1 :: rest) p0 Hx Hxs) as Hup.
  rewrite Forall_forall in Hunit.
  split; [ exact Hin | ]. split; [ exact Hup | ].
  split; [ apply Hunit; exact Hin | ].
  split; apply Hunit; simpl; auto.
Qed.

Lemma confidence_bounds_witness :
  In 0.625%float [0.125%float; 0.25%float; 0.625%float]
  /\ Forall (fun p => PrimFloat.leb p 0.625%float = true)
            [0.125%float; 0.25%float; 0.625%float].
Proof.
  destruct (confidence_bounds three_class_artifact
              (loaded three_class_artifact) (sample_product "p1" 10 15 3 5)
              (set_profit_margin (sample_product "p1" 10 15 3 5)
                 (Some 50%float))
              [0.125%float; 0.25%float; 0.625%float] []
              (PredictionResponse_init true 0.625 0.25 0.125))
    as (Hin & Hup & _);
    [ reflexivity | reflexivity | reflexivity | repeat constructor
    | reflexivity | ].
  split; [ exact Hin | exact Hup ].
Defined.

(** ** Start-up and the introspection endpoints *)


(** X13: the endpoints tell one story about the artifact: [read_root] and
    [health_check] report the same [model_loaded] flag; the status is
    "healthy" when it is true and "degraded" when it is false;
    [get_model_info] returns exactly when it is true; and [predict_reorder]
    and [batch_predict] raise their 503 exactly when it is false. *)
Theorem endpoints_agree_on_model (g : Globals) :
  exists (flag : bool) (root health : dict),
    fst (read_root g) = Return root
    /\ fst (health_check g) = Return health
    /\ lookup root "model_loaded" = Some (VBool flag)
    /\ lookup health "model_loaded" = Some (VBool flag)
    /\ lookup health "status"
       = Some (VStr (if flag then "healthy" else "degraded"))
    /\ (flag = true <-> exists info, fst (get_model_info g) = Return info)
    /\ (flag = false <->
        forall data,
          fst (fst (predict_reorder data g))
          = Raise (HTTPException 503
                     (Str "Model not loaded. Please check server configuration.")))
    /\ (flag = false <->
        forall products,
          fst (fst (batch_predict products g))
          = Raise (HTTPException 503 (Str "Model not loaded"))).
Proof.
  exists (is_not_None (model g)). do 2 eexists.
  split; [ reflexivity | ]. split; [ reflexivity | ].
  split; [ reflexivity | ]. split; [ reflexivity | ].
  split; [ reflexivity | ].
  unfold get_model_info, predict_reorder, batch_predict.
  destruct (model g) as [m|]; simpl.
  - split; [ split; [ intros _; eexists; reflexivity | reflexivity ] | ].
    split; (split; [ discriminate | ]).
    + intros H. specialize (H (sample_product "p" 10 15 3 5)).
      destruct (predict_reorder_try m _) as [[resp|e] d];
        simpl in H; discriminate H.
    + intros H. specialize (H []). simpl in H. discriminate H.
  - split; [ split; [ discriminate | intros (info & H); discriminate H ] | ].
    split; (split; [ reflexivity | reflexivity ]).
Qed.

(** ** What the schema lets through *)

Lemma validate_Some (b : ProductBody) (data : ProductData) :
  validate b = Some data ->
  PrimFloat.ltb 0%float (body_cost_price b) = true
  /\ PrimFloat.ltb 0%float (body_selling_price b) = true
  /\ 1 <= reorder_frequency data
  /\ 0 <= body_current_stock b
  /\ 0 <= body_minimum_stock_level b
  /\ cost_price data = body_cost_price b
  /\ selling_price data = body_selling_price b
  /\ profit_margin data = body_profit_margin b
  /\ current_stock data = body_current_stock b
  /\ minimum_stock_level data = body_minimum_stock_level b.
Proof.
  unfold validate.
  destruct (PrimFloat.ltb 0%float (body_cost_price b)); [ | discriminate ].
  destruct (PrimFloat.ltb 0%float (body_selling_price b)); [ | discriminate ].
  destruct (body_reorder_frequency b) as [n|] eqn:Hrf; simpl.
  - destruct (1 <=? n) eqn:Hn; [ | discriminate ].
    destruct (0 <=? body_current_stock b) eqn:Hc; [ | discriminate ].
    destruct (0 <=? body_minimum_stock_level b) eqn:Hs; [ | discriminate ].
    simpl. intros [= <-]. simpl. repeat split; lia.
  - destruct (0 <=? body_current_stock b) eqn:Hc; [ | discriminate ].
    destruct (0 <=? body_minimum_stock_level b) eqn:Hs; [ | discriminate ].
    simpl. intros [= <-]. simpl. repeat split; lia.
Qed.



Lemma margin_of_infinite_cost (selling : float) :
  spec_margin selling infinity = nan.
Proof.
  unfold spec_margin. apply Prim2SF_inj.
  rewrite mul_spec, div_spec, sub_spec.
  replace (Prim2SF infinity) with (S754_infinity false) by reflexivity.
  replace (Prim2SF nan) with S754_nan by reflexivity.
  destruct (Prim2SF selling) as [s|s| |s mx ex]; try reflexivity.
  destruct s; reflexivity.
Qed.

(** X15: the schema's [gt=0] lets an infinite cost price through; with no
    margin supplied the handlers then derive NaN, whatever the selling
    price, and that NaN is what the frame carries under "Profit margin". *)
Theorem infinite_cost_derives_nan (b : ProductBody) (data : ProductData) :
  body_cost_price b = infinity ->
  body_profit_margin b = None ->
  validate b = Some data ->
  fill_profit_margin data = Return (set_profit_margin data (Some nan))
  /\ (exists row,
        input_data (set_profit_margin data (Some nan)) = [row]
        /\ lookup row "Profit margin" = Some (VFloat nan))
  /\ (forall m, snd (predict_reorder_try m data)
                = set_profit_margin data (Some nan)).
Proof.
  intros Hinf Hnone Hv.
  destruct (validate_Some b data Hv)
    as (Hc & _ & _ & _ & _ & Ec & _ & Epm & _).
  assert (Hfill : fill_profit_margin data
                  = Return (set_profit_margin data (Some nan))).
  { rewrite (fill_profit_margin_absent data);
      [ | rewrite Epm; exact Hnone | rewrite Ec; exact Hc ].
    rewrite Ec, Hinf, margin_of_infinite_cost. reflexivity. }
  split; [ exact Hfill | ]. split.
  - eexists. split; reflexivity.
  - intros m. unfold predict_reorder_try. rewrite Hfill. reflexivity.
Qed.

Lemma infinite_cost_derives_nan_witness :
  exists data,
    validate infinite_cost_body = Some data
    /\ fill_profit_margin data = Return (set_profit_margin data (Some nan)).
Proof.
  eexists. split; [ reflexivity | ].
  apply (infinite_cost_derives_nan infinite_cost_body); reflexivity.
Defined.

(** ** What the artifact can do wrong *)

(** X16: with an artifact loaded and the margin filled, every way the
    artifact can let [predict_reorder] down ends in the 500
    [HTTPException] with its cause kept: an exception raised by [predict]
    or [predict_proba] is passed on as it is; an empty list of labels or of
    probability rows gives [IndexError]; an empty probability row gives
    [ValueError] (from [max]); a row of one entry gives [IndexError]. *)
Theorem predict_reorder_artifact_failures
    (m : Artifact) (g : Globals) (data d : ProductData) :
  model g = Some m ->
  fill_profit_margin data = Return d ->
  let failed e :=
    fst (fst (predict_reorder data g))
    = Raise (HTTPException 500 (FStr "Prediction error: " e)) in
  (forall e, predict m (input_data d) = Raise e -> failed e)
  /\ (predict m (input_data d) = Return [] -> failed IndexError)
  /\ (forall y ys,
        predict m (input_data d) = Return (y :: ys) ->
        (forall e, predict_proba m (input_data d) = Raise e -> failed e)
        /\ (predict_proba m (input_data d) = Return [] -> failed IndexError)
        /\ (forall ps, predict_proba m (input_data d) = Return ([] :: ps) ->
                       failed ValueError)
        /\ (forall p0 ps,
              predict_proba m (input_data d) = Return ([p0] :: ps) ->
              failed IndexError)).
Proof.
  intros Hm Hfill failed. subst failed. cbv beta.
  rewrite (predict_reorder_loaded m g data Hm). simpl.
  unfold predict_reorder_try. rewrite Hfill. simpl.
  unfold make_prediction, getitem.
  split; [ intros e He; rewrite He; reflexivity | ].
  split; [ intros He; rewrite He; reflexivity | ].
  intros y ys Hy. rewrite Hy. simpl.
  split; [ intros e He; rewrite He; reflexivity | ].
  split; [ intros He; rewrite He; reflexivity | ].
  split; [ intros ps He; rewrite He; reflexivity | ].
  intros p0 ps He. rewrite He. reflexivity.
Qed.

Lemma predict_reorder_artifact_failures_witness :
  fst (fst (predict_reorder (sample_product "p1" 10 15 3 5)
              (loaded one_column_artifact)))
  = Raise (HTTPException 500 (FStr "Prediction error: " IndexError))
  /\ fst (fst (predict_reorder (sample_product "p1" 10 15 3 5)
                 (loaded failing_artifact)))
     = Raise (HTTPException 500
                (FStr "Prediction error: "
                   (ArtifactError "Found unknown categories"))).
Proof.
  destruct (predict_reorder_artifact_failures one_column_artifact
              (loaded one_column_artifact) (sample_product "p1" 10 15 3 5)
              (set_profit_margin (sample_product "p1" 10 15 3 5)
                 (Some 50%float)) eq_refl eq_refl) as (_ & _ & Hone).
  destruct (predict_reorder_artifact_failures failing_artifact
              (loaded failing_artifact) (sample_product "p1" 10 15 3 5)
              (set_profit_margin (sample_product "p1" 10 15 3 5)
                 (Some 50%float)) eq_refl eq_refl) as (Hfail & _).
  split.
  - destruct (Hone (VInt 1) [] eq_refl) as (_ & _ & _ & Hidx).
    exact (Hidx 1%float [] eq_refl).
  - exact (Hfail _ eq_refl).
Defined.
